(** * EV Charging Assistant: the ranking and prompt pipeline of [app.py]

    A shallow embedding of the four functions that carry the logic of the
    application

    - [get_charging_stations]  (app.py, lines 26-44),
    - [recommend_stations]     (app.py, lines 47-80),
    - [chat_with_openai]       (app.py, lines 83-103),
    - the context block of [main] (app.py, lines 149-156),

    followed by the properties the specification states about them.

    The rest of the script is embedded as well: [get_openai_client]
    (lines 15-21) and the whole of [main] (lines 106-192), as a
    computation over the session state and the page; its properties (X1
    and on) come after those of the specification.

    The station records come from [response.json()], so they are arbitrary
    JSON values and the code reaches into them with [dict.get], [<],
    truthiness tests, [str] and an f-string.  The embedding keeps that
    dynamic typing: a record is a [pyval], and every operation that Python
    may refuse returns a [result], with the class of the exception raised. *)

From Stdlib Require Import ZArith QArith List String Ascii Bool Lia.
From Stdlib Require Import Permutation Sorted DecimalString.
Import ListNotations.

Local Open Scope Z_scope.
Local Open Scope string_scope.

(** ** Python values and the builtins the code uses *)

(** The exception classes the modelled builtins raise. *)
Inductive error : Type :=
| AttributeError
| TypeError
| ValueError
| OverflowError.

(** A computation either returns a value or raises. *)
Inductive result (A : Type) : Type :=
| Ok (a : A)
| Raise (e : error).

Arguments Ok {A} a.
Arguments Raise {A} e.

Definition bind {A B : Type} (c : result A) (k : A -> result B) : result B :=
  match c with
  | Ok a => k a
  | Raise e => Raise e
  end.

Notation "x <- c ;; k" := (bind c (fun x => k))
  (at level 61, c at next level, right associativity).

(** A Python [float]: an IEEE double is a NaN, an infinity, the negative
    zero, or a finite number with an exact rational value.  Comparison with
    an [int] and the [.1f] presentation both work on that exact value. *)
Inductive pyfloat : Type :=
| FNan
| FInf (negative : bool)
| FNegZero
| FFin (q : Q).

#[local] Set Warnings "-register-all".

(** What [json.loads] builds.  A [dict] keeps its entries in insertion
    order; [lookup] reads the first entry of a key. *)
Inductive pyval : Type :=
| PNone
| PBool (b : bool)
| PInt (z : Z)
| PFloat (f : pyfloat)
| PStr (s : string)
| PList (items : list pyval)
| PDict (entries : list (string * pyval)).

Fixpoint lookup (key : string) (entries : list (string * pyval)) : option pyval :=
  match entries with
  | [] => None
  | (k, v) :: rest => if String.eqb key k then Some v else lookup key rest
  end.

(** [o.get(key, default)]: only a [dict] has the method. *)
Definition py_get (o : pyval) (key : string) (default : pyval) : result pyval :=
  match o with
  | PDict entries =>
      Ok (match lookup key entries with
          | Some v => v
          | None => default
          end)
  | _ => Raise AttributeError
  end.

Definition float_truthy (f : pyfloat) : bool :=
  match f with
  | FNan => true
  | FInf _ => true
  | FNegZero => false
  | FFin q => negb (Qeq_bool q 0)
  end.

(** [bool(v)], the test an [if] applies. *)
Definition py_truthy (v : pyval) : bool :=
  match v with
  | PNone => false
  | PBool b => b
  | PInt z => negb (Z.eqb z 0)
  | PFloat f => float_truthy f
  | PStr s => negb (String.eqb s "")
  | PList items => match items with [] => false | _ => true end
  | PDict entries => match entries with [] => false | _ => true end
  end.

Definition float_lt_int (f : pyfloat) (n : Z) : bool :=
  match f with
  | FNan => false
  | FInf negative => negative
  | FNegZero => Z.ltb 0 n
  | FFin q => match (q ?= inject_Z n)%Q with Lt => true | _ => false end
  end.

(** [v < n] for an [int] literal [n]: defined on [bool], [int] and
    [float]; a [TypeError] on anything else. *)
Definition py_lt_int (v : pyval) (n : Z) : result bool :=
  match v with
  | PBool b => Ok (Z.ltb (if b then 1 else 0) n)
  | PInt z => Ok (Z.ltb z n)
  | PFloat f => Ok (float_lt_int f n)
  | PNone | PStr _ | PList _ | PDict _ => Raise TypeError
  end.

(** The items a [for] loop visits: the elements of a list, the keys of a
    dict, the characters of a string (one-character strings, on which the
    loop body raises at once); other values are not iterable. *)
Definition py_iter (v : pyval) : result (list pyval) :=
  match v with
  | PList items => Ok items
  | PDict entries => Ok (map (fun kv => PStr (fst kv)) entries)
  | PStr s => Ok (map (fun c => PStr (String c "")) (list_ascii_of_string s))
  | PNone | PBool _ | PInt _ | PFloat _ => Raise TypeError
  end.

(** [pat in s] on strings: [pat] occurs in [s] as a substring. *)
Fixpoint py_in (pat s : string) : bool :=
  if String.prefix pat s then true
  else match s with
       | EmptyString => false
       | String _ rest => py_in pat rest
       end.

(** An [int] in decimal, as [str] and the f-string print it. *)
Definition dec (z : Z) : string := NilZero.string_of_int (Z.to_int z).

(** The line feed. *)
Definition nl : string := String (ascii_of_nat 10) EmptyString.

(** [n / d] rounded to the nearest integer, ties to the even one
    ([0 <= n], [0 < d]). *)
Definition round_half_even (n d : Z) : Z :=
  let fl := (n / d)%Z in
  match (2 * (n mod d) ?= d)%Z with
  | Lt => fl
  | Gt => (fl + 1)%Z
  | Eq => if Z.even fl then fl else (fl + 1)%Z
  end.

(** The double nearest to a natural number [a]: exact below [2^53], else
    the 53 leading bits rounded to even. *)
Definition nearest_double (a : Z) : Z :=
  if Z.ltb a (2 ^ 53) then a
  else
    let sh := (Z.log2 a - 52)%Z in
    (round_half_even a (2 ^ sh) * 2 ^ sh)%Z.

(** [float(z)]: an [OverflowError] once the rounded value leaves the
    range of a double. *)
Definition float_of_int (z : Z) : result pyfloat :=
  let a := nearest_double (Z.abs z) in
  if Z.leb (2 ^ 1024) a then Raise OverflowError
  else Ok (FFin (inject_Z (Z.sgn z * a))).

(** A finite value with one digit after the point, correctly rounded. *)
Definition format_Q_1f (q : Q) : string :=
  let t := round_half_even (10 * Z.abs (Qnum q)) (Zpos (Qden q)) in
  (if Z.ltb (Qnum q) 0 then "-" else "") ++ dec (t / 10) ++ "." ++ dec (t mod 10).

Definition format_float_1f (f : pyfloat) : string :=
  match f with
  | FNan => "nan"
  | FInf negative => if negative then "-inf" else "inf"
  | FNegZero => "-0.0"
  | FFin q => format_Q_1f q
  end.

(** [format(v, '.1f')], the replacement field [{v:.1f}]: a [float] is
    printed as it is, an [int] (and so a [bool]) is converted with [float]
    first, a [str] has no presentation type [f], and the other types take
    no format string at all. *)
Definition py_format_1f (v : pyval) : result string :=
  match v with
  | PFloat f => Ok (format_float_1f f)
  | PInt z => f <- float_of_int z ;; Ok (format_float_1f f)
  | PBool b => f <- float_of_int (if b then 1 else 0) ;; Ok (format_float_1f f)
  | PStr _ => Raise ValueError
  | PNone | PList _ | PDict _ => Raise TypeError
  end.

(** [str(v)], which is also what a plain replacement field [{v}] prints.
    For a float, a list or a dict it is [repr(v)]: the shortest digits
    that read back as the same double, and the quoting of nested strings.
    That algorithm belongs to the interpreter, and is taken as the
    parameter [py_repr]. *)
Definition py_str (py_repr : pyval -> string) (v : pyval) : string :=
  match v with
  | PStr s => s
  | PNone => "None"
  | PBool b => if b then "True" else "False"
  | PInt z => dec z
  | PFloat _ | PList _ | PDict _ => py_repr v
  end.

(** ** The data the application builds *)

(** One entry of [scored_stations]: the dict with the keys ['station'],
    ['score'] and ['distance'] (app.py, lines 72-76). *)
Record scored_station : Type := Scored {
  station : pyval;
  score : Z;
  distance : pyval
}.

(** What a call to an external service comes to: it returns, or it raises
    an exception [e], kept as the text [str(e)]. *)
Inductive outcome (A : Type) : Type :=
| Returned (a : A)
| Raised (description : string).

Arguments Returned {A} a.
Arguments Raised {A} description.

(** The [params] dict of the directory-service request (lines 30-37). *)
Record poi_params : Type := PoiParams {
  latitude : pyval;
  longitude : pyval;
  radius : pyval;
  maxresults : Z;
  compact : bool;
  verbose : bool
}.

(** The part of a [requests.Response] the code reads: [status_code] and
    the result of [json()]. *)
Record response : Type := Response {
  status_code : Z;
  json : outcome pyval
}.

(** The keyword arguments of [client.chat.completions.create]
    (lines 92-100); a message is its role and its content. *)
Record chat_request : Type := ChatRequest {
  model : string;
  messages : list (string * string);
  max_tokens : Z;
  temperature : Q
}.

(** ** [get_charging_stations] (app.py, lines 26-44) *)

Section StationFetcher.

(** [requests.get(url, params=params, timeout=10)], the one outbound call. *)
Variable requests_get : string -> poi_params -> Z -> outcome response.

(** Lines 29-37: the endpoint and the query. *)
Definition poi_url : string := "https://api.openchargemap.io/v3/poi/".

Definition poi_query (lat lon dist : pyval) : poi_params :=
  {| latitude := lat; longitude := lon; radius := dist;
     maxresults := 10; compact := true; verbose := false |}.

(** The function returns a value and may show one message with
    [st.error]; the pair is the value and the messages shown.  The
    [except Exception] clause covers the request and [response.json()]
    alike.  ([distance] defaults to 10 at the call sites that omit it.) *)
Definition get_charging_stations (lat lon dist : pyval) : pyval * list string :=
  match requests_get poi_url (poi_query lat lon dist) 10 with
  | Returned resp =>
      if Z.eqb (status_code resp) 200 then
        match json resp with
        | Returned body => (body, [])
        | Raised e => (PList [], ["Error fetching stations: " ++ e])
        end
      else (PList [], [])
  | Raised e => (PList [], ["Error fetching stations: " ++ e])
  end.

End StationFetcher.

(** ** [recommend_stations] (app.py, lines 47-80) *)

Section StationRanker.

Variable py_repr : pyval -> string.

(** Lines 56-59: the points for the distance, added to [score]. *)
Definition distance_step (score : Z) (distance : pyval) : result Z :=
  near <- py_lt_int distance 5 ;;
  if near then Ok (score + 10)%Z
  else
    mid <- py_lt_int distance 10 ;;
    if mid then Ok (score + 5)%Z else Ok score.

(** Lines 63-66: the loop over [connections].  [and] evaluates
    [level.get] only when [level] is truthy. *)
Fixpoint connections_loop (score : Z) (connections : list pyval) : result Z :=
  match connections with
  | [] => Ok score
  | conn :: rest =>
      level <- py_get conn "Level" (PDict []) ;;
      if py_truthy level then
        title <- py_get level "Title" (PStr "") ;;
        if py_in "Fast" (py_str py_repr title)
        then connections_loop (score + 8)%Z rest
        else connections_loop score rest
      else connections_loop score rest
  end.

(** Lines 69-70: the availability bonus.  [get] without a default gives
    [None] for a missing key. *)
Definition availability_step (score : Z) (station : pyval) : result Z :=
  status <- py_get station "StatusType" (PDict []) ;;
  operational <- py_get status "IsOperational" PNone ;;
  if py_truthy operational then Ok (score + 5)%Z else Ok score.

(** Lines 52-76: the body of the loop over [stations], up to the dict
    that is appended. *)
Definition score_station (station : pyval) : result scored_station :=
  let score := 0%Z in
  address <- py_get station "AddressInfo" (PDict []) ;;
  distance <- py_get address "Distance" (PInt 999) ;;
  score <- distance_step score distance ;;
  connections <- py_get station "Connections" (PList []) ;;
  conns <- py_iter connections ;;
  score <- connections_loop score conns ;;
  score <- availability_step score station ;;
  Ok {| station := station; score := score; distance := distance |}.

(** Lines 51-76: the loop, appending to [scored_stations]. *)
Fixpoint stations_loop (scored_stations : list scored_station)
    (stations : list pyval) : result (list scored_station) :=
  match stations with
  | [] => Ok scored_stations
  | station :: rest =>
      entry <- score_station station ;;
      stations_loop (scored_stations ++ [entry])%list rest
  end.

(** Line 79: [list.sort(key=lambda x: x['score'], reverse=True)].  Python
    documents the sort as stable, also under [reverse]; an insertion sort
    that puts an entry before the first one that does not score more is
    such a sort. *)
Fixpoint insert_desc (x : scored_station) (l : list scored_station)
    : list scored_station :=
  match l with
  | [] => [x]
  | y :: rest =>
      if Z.leb (score y) (score x) then x :: y :: rest
      else y :: insert_desc x rest
  end.

Fixpoint sort_desc (l : list scored_station) : list scored_station :=
  match l with
  | [] => []
  | x :: rest => insert_desc x (sort_desc rest)
  end.

(** The function.  [preferred_type] defaults to ["Fast"] at the call
    sites that omit it. *)
Definition recommend_stations (stations : pyval) (preferred_type : pyval)
    : result (list scored_station) :=
  items <- py_iter stations ;;
  scored_stations <- stations_loop [] items ;;
  Ok (sort_desc scored_stations).

(** ** The context block of [main] (app.py, lines 149-156) *)

(** Line 156: one line of the context, for the entry numbered [i]. *)
Definition context_line (i : Z) (item : scored_station) : result string :=
  addr <- py_get (station item) "AddressInfo" (PDict []) ;;
  title <- py_get addr "Title" (PStr "Unknown") ;;
  km <- py_format_1f (distance item) ;;
  Ok (dec i ++ ". " ++ py_str py_repr title ++ " - " ++ km ++ "km away" ++ nl).

(** Lines 153-156: [enumerate(top_stations, i)], appending to [context]. *)
Fixpoint context_loop (i : Z) (context : string) (top_stations : list scored_station)
    : result string :=
  match top_stations with
  | [] => Ok context
  | item :: rest =>
      line <- context_line i item ;;
      context_loop (i + 1)%Z (context ++ line) rest
  end.

(** Lines 149-156.  [recommendations] is what the session state holds
    under ['recommendations']: nothing before the first search, then the
    list [recommend_stations] returned. *)
Definition main_context (recommendations : option (list scored_station))
    : result string :=
  match recommendations with
  | Some ((_ :: _) as ranked) =>
      let top_stations := firstn 3 ranked in
      context_loop 1 ("Top 3 recommended stations:" ++ nl) top_stations
  | Some [] | None => Ok ""
  end.

End StationRanker.

(** ** [chat_with_openai] (app.py, lines 83-103) *)

Section ChatAssistant.

(** [client.chat.completions.create]: it raises, or returns a response,
    of which the code reads the [message.content] of the choices. *)
Variable create : chat_request -> outcome (list pyval).

(** Lines 86-90: the system instruction, with [context] interpolated. *)
Definition system_prompt (context : string) : string :=
  "You are an EV Charging Assistant. Help users find charging stations and answer EV-related questions."
  ++ nl ++ "        " ++ nl
  ++ "Be friendly, concise, and helpful. If station data is provided, reference it naturally."
  ++ nl ++ nl ++ "Context: " ++ context.

(** The request of lines 92-100: a system and a user message. *)
Definition completion_request (user_message context : string) : chat_request :=
  {| model := "gpt-3.5-turbo";
     messages := [("system", system_prompt context); ("user", user_message)];
     max_tokens := 500;
     temperature := 7 # 10 |}.

(** [response.choices[0]] raises an [IndexError] on an empty list, inside
    the [try], so it takes the [except] branch as well. *)
Definition chat_with_openai (user_message context : string) : pyval :=
  match create (completion_request user_message context) with
  | Returned (content :: _) => content
  | Returned [] => PStr ("Sorry, I encountered an error: " ++ "list index out of range")
  | Raised e => PStr ("Sorry, I encountered an error: " ++ e)
  end.

End ChatAssistant.

(** ** [get_openai_client] (app.py, lines 15-21) *)

(** How the start of the script ends: the script is halted by [st.stop]
    after a notice, [OpenAI(api_key=...)] is called with a key, or the
    lookup of the secret raised and nothing caught it. *)
Inductive startup : Type :=
| Stopped (notice : string)
| Constructed (api_key : pyval)
| Crashed (description : string).

(** [getenv] is what [os.getenv("OPENAI_API_KEY")] returns, [None] when
    the variable is unset.  [secret] is what
    [st.secrets.get("OPENAI_API_KEY", "")] comes to: a value of the
    secrets file, [""] when the key is missing there.  [or] evaluates
    the second operand only when the first is falsy.  The decorator
    [st.cache_resource] only makes the script run the body once per
    process. *)
Definition get_openai_client (getenv : option string) (secret : outcome pyval)
    : startup :=
  let env_value := match getenv with Some s => PStr s | None => PNone end in
  let api_key :=
    if py_truthy env_value then Returned env_value else secret in
  match api_key with
  | Raised e => Crashed e
  | Returned key =>
      if negb (py_truthy key)
      then Stopped "Please add OPENAI_API_KEY in Streamlit secrets!"
      else Constructed key
  end.

(** ** The session and the page of [main] (app.py, lines 106-192) *)

(** A message of the transcript: the dict with the keys ["role"] and
    ["content"] (lines 144 and 164). *)
Record chat_message : Type := ChatMessage {
  role : string;
  content : pyval
}.

(** The three keys of [st.session_state] the script uses; [None] for a key
    that is not in the state. *)
Record session_state : Type := Session {
  stations_key : option pyval;
  recommendations_key : option (list scored_station);
  messages_key : option (list chat_message)
}.

(** What a run puts on the page, in order.  The input widgets (the two
    number inputs, the slider, the button, the chat input) are the
    arguments of [main]; the containers that only place their content
    (the sidebar, the spinners, the columns) leave no trace here. *)
Inductive ui_event : Type :=
| UiTitle (text : string)
| UiHeader (text : string)
| UiMarkdown (body : pyval)
| UiSuccess (text : string)
| UiError (text : string)
| UiChatMessage (name : string) (body : pyval)
| UiExpander (label : string)
| UiWrite (text : string).

(** A piece of the script: it reads and changes the session, puts events
    on the page, and returns or raises.  What was written to the session
    and to the page before an exception stays written. *)
Definition ui (A : Type) : Type :=
  session_state -> session_state * list ui_event * result A.

Definition ui_ret {A : Type} (a : A) : ui A :=
  fun s => (s, [], Ok a).

Definition ui_bind {A B : Type} (c : ui A) (k : A -> ui B) : ui B :=
  fun s =>
    match c s with
    | (s1, page1, Ok a) =>
        match k a s1 with
        | (s2, page2, r) => (s2, (page1 ++ page2)%list, r)
        end
    | (s1, page1, Raise e) => (s1, page1, Raise e)
    end.

Notation "x <~ c ;; k" := (ui_bind c (fun x => k))
  (at level 61, c at next level, right associativity).

Definition emit (event : ui_event) : ui unit :=
  fun s => (s, [event], Ok tt).

Definition lift {A : Type} (r : result A) : ui A :=
  fun s => (s, [], r).

Definition read_session : ui session_state :=
  fun s => (s, [], Ok s).

Definition write_session (s' : session_state) : ui unit :=
  fun _ => (s', [], Ok tt).

Fixpoint ui_for {A : Type} (body : A -> ui unit) (items : list A) : ui unit :=
  match items with
  | [] => ui_ret tt
  | item :: rest => _ <~ body item ;; ui_for body rest
  end.

(** [len(v)]: the number of elements of a list, of keys of a dict, of
    characters of a string; a [TypeError] on the other values. *)
Definition py_len (v : pyval) : result Z :=
  match v with
  | PList items => Ok (Z.of_nat (List.length items))
  | PDict entries =>
      Ok (Z.of_nat (List.length (nodup string_dec (map fst entries))))
  | PStr s => Ok (Z.of_nat (String.length s))
  | PNone | PBool _ | PInt _ | PFloat _ => Raise TypeError
  end.

(** The strings of a list of values, as [', '.join(set(...))] needs them:
    a list or a dict cannot enter a set, and [join] takes nothing but
    [str]; each refusal is a [TypeError]. *)
Fixpoint py_strings (values : list pyval) : result (list string) :=
  match values with
  | [] => Ok []
  | PStr s :: rest => names <- py_strings rest ;; Ok (s :: names)
  | _ :: _ => Raise TypeError
  end.

Section Main.

Variable requests_get : string -> poi_params -> Z -> outcome response.
Variable create : chat_request -> outcome (list pyval).
Variable py_repr : pyval -> string.

(** The order in which Python iterates over [set(names)]: it depends on
    the hash seed of the process, and is taken as a parameter. *)
Variable set_order : list string -> list string.

(** Lines 123-127: the body of the button's branch. *)
Definition main_search (lat lon distance : pyval) : ui unit :=
  let (stations, notices) := get_charging_stations requests_get lat lon distance in
  _ <~ ui_for (fun notice => emit (UiError notice)) notices ;;
  s <~ read_session ;;
  _ <~ write_session {| stations_key := Some stations;
                        recommendations_key := recommendations_key s;
                        messages_key := messages_key s |} ;;
  ranked <~ lift (recommend_stations py_repr stations (PStr "Fast")) ;;
  s <~ read_session ;;
  _ <~ write_session {| stations_key := stations_key s;
                        recommendations_key := Some ranked;
                        messages_key := messages_key s |} ;;
  n <~ lift (py_len stations) ;;
  emit (UiSuccess ("Found " ++ dec n ++ " stations!")).

(** [st.session_state.messages.append(message)]. *)
Definition append_message (message : chat_message) : ui unit :=
  s <~ read_session ;;
  write_session {| stations_key := stations_key s;
                   recommendations_key := recommendations_key s;
                   messages_key :=
                     Some (match messages_key s with
                           | Some history => history
                           | None => []
                           end ++ [message])%list |}.

(** Lines 133-164: the transcript and the answer to [prompt], which is
    what [st.chat_input] returned, [None] when nothing was typed. *)
Definition main_chat (prompt : option string) : ui unit :=
  s <~ read_session ;;
  _ <~ match messages_key s with
       | Some _ => ui_ret tt
       | None => write_session {| stations_key := stations_key s;
                                  recommendations_key := recommendations_key s;
                                  messages_key := Some [] |}
       end ;;
  s <~ read_session ;;
  _ <~ ui_for (fun message => emit (UiChatMessage (role message) (content message)))
         (match messages_key s with Some history => history | None => [] end) ;;
  match prompt with
  | Some text =>
      if negb (String.eqb text "") then
        _ <~ append_message {| role := "user"; content := PStr text |} ;;
        _ <~ emit (UiChatMessage "user" (PStr text)) ;;
        s <~ read_session ;;
        context <~ lift (main_context py_repr (recommendations_key s)) ;;
        let response := chat_with_openai create text context in
        _ <~ emit (UiChatMessage "assistant" response) ;;
        append_message {| role := "assistant"; content := response |}
      else ui_ret tt
  | None => ui_ret tt
  end.

(** Line 190: the list comprehension over [connections]. *)
Fixpoint charger_types (connections : list pyval) : result (list pyval) :=
  match connections with
  | [] => Ok []
  | c :: rest =>
      connection_type <- py_get c "ConnectionType" (PDict []) ;;
      title <- py_get connection_type "Title" (PStr "Unknown") ;;
      titles <- charger_types rest ;;
      Ok (title :: titles)
  end.

(** Lines 171-192: the card of the entry numbered [i]. *)
Definition main_card (i : Z) (item : scored_station) : ui unit :=
  addr <~ lift (py_get (station item) "AddressInfo" (PDict [])) ;;
  title <~ lift (py_get addr "Title" (PStr "Unknown Station")) ;;
  km <~ lift (py_format_1f (distance item)) ;;
  _ <~ emit (UiExpander ("#" ++ dec i ++ " - " ++ py_str py_repr title
                         ++ " (" ++ km ++ " km)")) ;;
  address_line <~ lift (py_get addr "AddressLine1" (PStr "N/A")) ;;
  _ <~ emit (UiWrite ("**Address**: " ++ py_str py_repr address_line)) ;;
  town <~ lift (py_get addr "Town" (PStr "N/A")) ;;
  _ <~ emit (UiWrite ("**Town**: " ++ py_str py_repr town)) ;;
  km <~ lift (py_format_1f (distance item)) ;;
  _ <~ emit (UiWrite ("**Distance**: " ++ km ++ " km")) ;;
  _ <~ emit (UiWrite ("**Recommendation Score**: " ++ dec (score item) ++ "/23")) ;;
  status <~ lift (py_get (station item) "StatusType" (PDict [])) ;;
  status_title <~ lift (py_get status "Title" (PStr "Unknown")) ;;
  _ <~ emit (UiWrite ("**Status**: " ++ py_str py_repr status_title)) ;;
  connections <~ lift (py_get (station item) "Connections" (PList [])) ;;
  if py_truthy connections then
    conns <~ lift (py_iter connections) ;;
    titles <~ lift (charger_types conns) ;;
    names <~ lift (py_strings titles) ;;
    emit (UiWrite ("**Chargers**: " ++ String.concat ", " (set_order names)))
  else ui_ret tt.

(** Lines 170-192: [enumerate(..., i)] over the cards. *)
Fixpoint cards_loop (i : Z) (items : list scored_station) : ui unit :=
  match items with
  | [] => ui_ret tt
  | item :: rest => _ <~ main_card i item ;; cards_loop (i + 1)%Z rest
  end.

(** Lines 167-192: the recommendations, five at most. *)
Definition main_cards : ui unit :=
  s <~ read_session ;;
  match recommendations_key s with
  | Some ((_ :: _) as ranked) =>
      _ <~ emit (UiHeader "🎯 Recommended Stations") ;;
      cards_loop 1 (firstn 5 ranked)
  | Some [] | None => ui_ret tt
  end.

(** Lines 106-192.  [lat], [lon] and [distance] are the values of the
    sidebar's widgets, [find_clicked] tells whether the button was
    pressed, [prompt] is what the chat input returned. *)
Definition main (lat lon distance : pyval) (find_clicked : bool)
    (prompt : option string) : ui unit :=
  _ <~ emit (UiTitle "⚡ EV Charging Assistant") ;;
  _ <~ emit (UiMarkdown
               (PStr "Find charging stations and get answers to your EV questions!")) ;;
  _ <~ emit (UiHeader "📍 Your Location") ;;
  _ <~ emit (UiMarkdown (PStr "---")) ;;
  _ <~ emit (UiMarkdown
               (PStr "💡 **Tip**: Use your phone's GPS to get exact coordinates")) ;;
  _ <~ (if find_clicked then main_search lat lon distance else ui_ret tt) ;;
  _ <~ emit (UiHeader "💬 Chat with Assistant") ;;
  _ <~ main_chat prompt ;;
  main_cards.

End Main.

(** ** The vocabulary of the specification *)

(** The three components of a score: what lines 56-59, lines 62-66 and
    lines 69-70 add, each run from a score of 0. *)
Definition distance_points (distance : pyval) : result Z :=
  distance_step 0 distance.

Definition connection_points (py_repr : pyval -> string) (station : pyval)
    : result Z :=
  connections <- py_get station "Connections" (PList []) ;;
  conns <- py_iter connections ;;
  connections_loop py_repr 0 conns.

Definition availability_points (station : pyval) : result Z :=
  availability_step 0 station.

(** A field of a record, by its path of keys: [None] when a key on the
    path is absent (or when what holds it is not a dict). *)
Fixpoint field (path : list string) (v : pyval) : option pyval :=
  match path with
  | [] => Some v
  | key :: rest =>
      match v with
      | PDict entries =>
          match lookup key entries with
          | Some v' => field rest v'
          | None => None
          end
      | _ => None
      end
  end.

(** The field, or its default when absent. *)
Definition field_or (default : pyval) (path : list string) (v : pyval) : pyval :=
  match field path v with
  | Some x => x
  | None => default
  end.

(** The mathematical value of a finite number. *)
Definition number_value (v : pyval) : option Q :=
  match v with
  | PBool b => Some (if b then 1 else 0)%Q
  | PInt z => Some (inject_Z z)
  | PFloat FNegZero => Some 0%Q
  | PFloat (FFin q) => Some q
  | _ => None
  end.

(** [pat] occurs in [s]. *)
Definition occurs_in (pat s : string) : Prop :=
  exists before after, s = before ++ pat ++ after.

(** A connection whose power-level label contains ["Fast"]. *)
Definition is_fast (py_repr : pyval -> string) (conn : pyval) : bool :=
  match field ["Level"; "Title"] conn with
  | Some title => py_in "Fast" (py_str py_repr title)
  | None => false
  end.

Definition fast_count (py_repr : pyval -> string) (connections : list pyval) : Z :=
  Z.of_nat (List.length (filter (is_fast py_repr) connections)).

(** Two records that agree on every key but ['StatusType']. *)
Definition same_outside_status (s1 s2 : pyval) : Prop :=
  exists d1 d2, s1 = PDict d1 /\ s2 = PDict d2 /\
    forall key, key <> "StatusType" -> lookup key d1 = lookup key d2.

(** Descending order of scores. *)
Definition score_ge (a b : scored_station) : Prop := (score b <= score a)%Z.

(** The entries of a given score, in the order of the list. *)
Definition with_score (k : Z) (l : list scored_station) : list scored_station :=
  filter (fun e => Z.eqb (score e) k) l.

(** The pieces of a text put end to end. *)
Definition join (pieces : list string) : string :=
  fold_right String.append "" pieces.

(** The lines of a text, as [str.splitlines] cuts it at line feeds. *)
Fixpoint lines_from (current : string) (s : string) : list string :=
  match s with
  | EmptyString => if String.eqb current "" then [] else [current]
  | String c rest =>
      if Ascii.eqb c (ascii_of_nat 10) then current :: lines_from "" rest
      else lines_from (current ++ String c "") rest
  end.

Definition lines (s : string) : list string := lines_from "" s.

(** A check on a field that applies only when the field is present. *)
Definition optional (ok : pyval -> bool) (v : option pyval) : bool :=
  match v with
  | Some x => ok x
  | None => true
  end.

Definition is_dict (v : pyval) : bool :=
  match v with PDict _ => true | _ => false end.

Definition is_distance (v : pyval) : bool :=
  match v with
  | PFloat _ => true
  | PInt z => match float_of_int z with Ok _ => true | Raise _ => false end
  | _ => false
  end.

(** The shape the directory service documents for a record, every field
    optional: [AddressInfo] a dict whose [Distance] is a float or an int
    that [float] accepts, [Connections] a list of dicts whose [Level] is a
    dict, [StatusType] a dict.  [Title] and [IsOperational] may hold any
    value. *)
Definition conforms_address (v : pyval) : bool :=
  match v with
  | PDict a => optional is_distance (lookup "Distance" a)
  | _ => false
  end.

Definition conforms_connection (v : pyval) : bool :=
  match v with
  | PDict c => optional is_dict (lookup "Level" c)
  | _ => false
  end.

Definition conforms_connections (v : pyval) : bool :=
  match v with
  | PList l => forallb conforms_connection l
  | _ => false
  end.

Definition conforms_station (v : pyval) : bool :=
  match v with
  | PDict d =>
      optional conforms_address (lookup "AddressInfo" d)
      && optional conforms_connections (lookup "Connections" d)
      && optional is_dict (lookup "StatusType" d)
  | _ => false
  end.

(** The records [score_station] accepts.  A value can be compared with an
    int when it is a bool, an int or a float. *)
Definition comparable (v : pyval) : bool :=
  match v with
  | PBool _ | PInt _ | PFloat _ => true
  | _ => false
  end.

Definition scorable_address (v : pyval) : bool :=
  match v with
  | PDict a => optional comparable (lookup "Distance" a)
  | _ => false
  end.

(** A connection is a dict whose [Level], when present and truthy, is a
    dict. *)
Definition scorable_connection (v : pyval) : bool :=
  match v with
  | PDict c => optional (fun level => negb (py_truthy level) || is_dict level)
                 (lookup "Level" c)
  | _ => false
  end.

Definition scorable_connections (v : pyval) : bool :=
  match py_iter v with
  | Ok items => forallb scorable_connection items
  | Raise _ => false
  end.

Definition scorable (v : pyval) : bool :=
  match v with
  | PDict d =>
      optional scorable_address (lookup "AddressInfo" d)
      && optional scorable_connections (lookup "Connections" d)
      && optional is_dict (lookup "StatusType" d)
  | _ => false
  end.

(** A record with [n] connections labelled "Fast" and nothing else. *)
Definition fast_connection : pyval :=
  PDict [("Level", PDict [("Title", PStr "Fast")])].

Definition station_with_fast (n : nat) : pyval :=
  PDict [("Connections", PList (repeat fast_connection n))].

(** The expander labels of a page, in order. *)
Fixpoint expander_labels (page : list ui_event) : list string :=
  match page with
  | [] => []
  | UiExpander label :: rest => label :: expander_labels rest
  | _ :: rest => expander_labels rest
  end.

(** The transcript of a session, empty before its first run. *)
Definition transcript (s : session_state) : list chat_message :=
  match messages_key s with
  | Some history => history
  | None => []
  end.

(** A session with its transcript replaced. *)
Definition with_transcript (s : session_state) (history : list chat_message)
    : session_state :=
  {| stations_key := stations_key s;
     recommendations_key := recommendations_key s;
     messages_key := Some history |}.

(** The bubble in which a message of the transcript is shown. *)
Definition bubble (message : chat_message) : ui_event :=
  UiChatMessage (role message) (content message).

(** The ranking a session holds, empty when it holds none. *)
Definition ranking (s : session_state) : list scored_station :=
  match recommendations_key s with
  | Some ranked => ranked
  | None => []
  end.

(** The result of a piece of the script with events put in front. *)
Definition after {A : Type} (events : list ui_event)
    (r : session_state * list ui_event * result A)
    : session_state * list ui_event * result A :=
  match r with
  | (s, page, x) => (s, (events ++ page)%list, x)
  end.

(** The label of the card of an entry numbered [i], whose distance prints
    as [km]: the title defaults to "Unknown Station". *)
Definition card_label (py_repr : pyval -> string) (i : Z) (item : scored_station)
    (km : string) : string :=
  "#" ++ dec i ++ " - "
  ++ py_str py_repr
       (field_or (PStr "Unknown Station") ["AddressInfo"; "Title"] (station item))
  ++ " (" ++ km ++ " km)".

(** The session a piece of the script leaves behind. *)
Definition final {A : Type} (c : ui A) (s : session_state) : session_state :=
  fst (fst (c s)).

(** A piece of the script that does not change the session. *)
Definition leaves_session {A : Type} (c : ui A) : Prop :=
  forall s, final c s = s.

(** ** Sample data *)

Module Samples.

(** A stand-in for [repr], for runs that print no float, list or dict. *)
Definition plain_repr (v : pyval) : string := "?".

(** Station A of the specification: 3 km away, one "Fast DC" connection,
    operational. *)
Definition station_a : pyval :=
  PDict [("AddressInfo", PDict [("Title", PStr "Depot"); ("Distance", PFloat (FFin 3))]);
         ("Connections", PList [PDict [("Level", PDict [("Title", PStr "Fast DC")])]]);
         ("StatusType", PDict [("IsOperational", PBool true)])].

(** Station A with the operational flag false. *)
Definition station_a_closed : pyval :=
  PDict [("AddressInfo", PDict [("Title", PStr "Depot"); ("Distance", PFloat (FFin 3))]);
         ("Connections", PList [PDict [("Level", PDict [("Title", PStr "Fast DC")])]]);
         ("StatusType", PDict [("IsOperational", PBool false)])].

(** Station B of the specification: 7 km away, no connection, not
    operational. *)
Definition station_b : pyval :=
  PDict [("AddressInfo", PDict [("Distance", PInt 7)]);
         ("Connections", PList []);
         ("StatusType", PDict [("IsOperational", PBool false)])].

(** A record with no field at all. *)
Definition station_bare : pyval := PDict [].

(** A record with the operational flag alone. *)
Definition station_open : pyval :=
  PDict [("StatusType", PDict [("IsOperational", PBool true)])].

(** A record with four connections: two labelled with "Fast", one
    labelled otherwise and one with no [Level]. *)
Definition station_hub : pyval :=
  PDict [("Connections",
          PList [PDict [("Level", PDict [("Title", PStr "Level 3: Fast DC")])];
                 PDict [("Level", PDict [("Title", PStr "Level 2: Medium")])];
                 PDict [("ConnectionTypeID", PInt 33)];
                 PDict [("Level", PDict [("Title", PStr "Fast")])]])].

Definition entry_a : scored_station :=
  {| station := station_a; score := 23; distance := PFloat (FFin 3) |}.

Definition entry_a_closed : scored_station :=
  {| station := station_a_closed; score := 18; distance := PFloat (FFin 3) |}.

Definition entry_b : scored_station :=
  {| station := station_b; score := 5; distance := PInt 7 |}.

Definition entry_bare : scored_station :=
  {| station := station_bare; score := 0; distance := PInt 999 |}.

Definition entry_open : scored_station :=
  {| station := station_open; score := 5; distance := PInt 999 |}.

Definition entry_hub : scored_station :=
  {| station := station_hub; score := 16; distance := PInt 999 |}.

(** A directory service that answers 503. *)
Definition unavailable (url : string) (params : poi_params) (timeout : Z)
    : outcome response :=
  Returned {| status_code := 503; json := Raised "Expecting value" |}.

(** A chat endpoint that is out of quota, and one that answers. *)
Definition rate_limited (request : chat_request) : outcome (list pyval) :=
  Raised "Error code: 429".

Definition answering (request : chat_request) : outcome (list pyval) :=
  Returned [PStr "CCS is a charging standard."].

(** A stand-in for the order of a set: first occurrences, in order. *)
Definition first_seen (names : list string) : list string :=
  rev (nodup string_dec (rev names)).

(** A directory service that answers 200 with an error object, and one
    that answers with stations A and B. *)
Definition over_quota (url : string) (params : poi_params) (timeout : Z)
    : outcome response :=
  Returned {| status_code := 200;
              json := Returned (PDict [("error", PStr "quota")]) |}.

Definition serving (url : string) (params : poi_params) (timeout : Z)
    : outcome response :=
  Returned {| status_code := 200;
              json := Returned (PList [station_b; station_a]) |}.

(** A session before its first run, and one with a ranking and a
    transcript. *)
Definition fresh : session_state :=
  {| stations_key := None; recommendations_key := None; messages_key := None |}.

Definition ongoing : session_state :=
  {| stations_key := Some (PList [station_b; station_a]);
     recommendations_key := Some [entry_a; entry_b];
     messages_key := Some [ {| role := "user"; content := PStr "Hi" |};
                            {| role := "assistant"; content := PStr "Hello" |} ] |}.

(** A record whose distance is an int beyond the doubles: it is ranked,
    and cannot be printed. *)
Definition station_far : pyval :=
  PDict [("AddressInfo", PDict [("Distance", PInt (2 ^ 1024))])].

Definition entry_far : scored_station :=
  {| station := station_far; score := 0; distance := PInt (2 ^ 1024) |}.

(** A record with three connections of two connector types. *)
Definition station_plugs : pyval :=
  PDict [("AddressInfo", PDict [("Title", PStr "Plaza"); ("Distance", PFloat (FFin (3 # 2)));
                                ("Town", PStr "Oakland")]);
         ("Connections",
          PList [PDict [("ConnectionType", PDict [("Title", PStr "CCS")])];
                 PDict [("ConnectionType", PDict [("Title", PStr "CHAdeMO")])];
                 PDict [("ConnectionType", PDict [("Title", PStr "CCS")])]])].

Definition entry_plugs : scored_station :=
  {| station := station_plugs; score := 10; distance := PFloat (FFin (3 # 2)) |}.

End Samples.

(** ** Basic facts *)

Lemma bind_Ok {A B : Type} (c : result A) (k : A -> result B) (b : B) :
  bind c k = Ok b -> exists a, c = Ok a /\ k a = Ok b.
Proof.
  destruct c as [a | e]; simpl; intros H.
  - exists a. split; [reflexivity | exact H].
  - discriminate H.
Qed.

(** Split a hypothesis [x <- c ;; k = Ok b] into its two halves. *)
Ltac bind_inv H :=
  let a := fresh "a" in
  let Ha := fresh "Ha" in
  apply bind_Ok in H; destruct H as (a & Ha & H).

Lemma py_get_Ok (o : pyval) (key : string) (default v : pyval) :
  py_get o key default = Ok v ->
  exists entries, o = PDict entries /\ v = field_or default [key] o.
Proof.
  destruct o; simpl; try discriminate.
  intros H. injection H as <-. exists entries. split; [reflexivity |].
  unfold field_or. simpl. destruct (lookup key entries); reflexivity.
Qed.

Lemma field_or_cons (default : pyval) (key : string) (path : list string)
    (entries : list (string * pyval)) :
  field_or default (key :: path) (PDict entries) =
  match lookup key entries with
  | Some v => field_or default path v
  | None => default
  end.
Proof. unfold field_or. simpl. destruct (lookup key entries); reflexivity. Qed.

(** Reading a key of what [get] returned for the key above it. *)
Lemma field_or_nested (default : pyval) (key1 key2 : string)
    (d a : list (string * pyval)) :
  field_or (PDict []) [key1] (PDict d) = PDict a ->
  field_or default [key2] (PDict a) = field_or default [key1; key2] (PDict d).
Proof.
  rewrite !field_or_cons.
  destruct (lookup key1 d) as [v |]; unfold field_or; simpl.
  - intros ->. now destruct (lookup key2 a).
  - intros H. now injection H as <-.
Qed.

Lemma string_app_assoc (a b c : string) : (a ++ b) ++ c = a ++ (b ++ c).
Proof.
  induction a as [| x a IH]; simpl; [reflexivity | now rewrite IH].
Qed.

Lemma prefix_append (pat s : string) :
  String.prefix pat s = true <-> exists after, s = pat ++ after.
Proof.
  revert s. induction pat as [| a pat IH]; intros s.
  - destruct s; simpl; split; intros _; try reflexivity; eexists; reflexivity.
  - destruct s as [| b s]; simpl.
    + split; [discriminate | intros [after H]; discriminate H].
    + destruct (ascii_dec a b) as [-> | Hab].
      * rewrite IH. split; intros [after H]; exists after.
        -- now rewrite H.
        -- now injection H.
      * split; [discriminate |].
        intros [after H]. injection H as H _. now elim Hab.
Qed.

Lemma py_in_unfold (pat s : string) :
  py_in pat s =
  if String.prefix pat s then true
  else match s with
       | EmptyString => false
       | String _ rest => py_in pat rest
       end.
Proof. destruct s; reflexivity. Qed.

(** [py_in] decides the occurrence of a substring. *)
Lemma py_in_spec (pat s : string) : py_in pat s = true <-> occurs_in pat s.
Proof.
  unfold occurs_in. split.
  - induction s as [| c s IH]; rewrite py_in_unfold;
      destruct (String.prefix pat _) eqn:Hp; intros H.
    + apply prefix_append in Hp as [after ->]. now exists "", after.
    + discriminate H.
    + apply prefix_append in Hp as [after ->]. now exists "", after.
    + destruct (IH H) as (before & after & ->).
      now exists (String c before), after.
  - intros (before & after & ->).
    induction before as [| c before IH]; rewrite py_in_unfold.
    + simpl. replace (String.prefix pat (pat ++ after)) with true; [reflexivity |].
      symmetry. apply prefix_append. now exists after.
    + destruct (String.prefix pat _); [reflexivity | exact IH].
Qed.

(** The tenths [format_Q_1f] prints are the nearest to ten times the
    value: the error is at most half a tenth. *)
Lemma round_half_even_nearest (n d : Z) :
  (0 <= n)%Z -> (0 < d)%Z ->
  (Z.abs (2 * (n - round_half_even n d * d)) <= d)%Z.
Proof.
  intros Hn Hd. unfold round_half_even.
  pose proof (Z.div_mod n d) as Hdiv.
  pose proof (Z.mod_pos_bound n d Hd) as Hmod.
  destruct (Z.compare_spec (2 * (n mod d)) d) as [E | L | G];
    [destruct (Z.even (n / d)) |..]; nia.
Qed.

(** ** The sort *)

Lemma insert_desc_perm (x : scored_station) (l : list scored_station) :
  Permutation (x :: l) (insert_desc x l).
Proof.
  induction l as [| y l IH]; simpl.
  - apply Permutation_refl.
  - destruct (Z.leb (score y) (score x)).
    + apply Permutation_refl.
    + eapply perm_trans; [apply perm_swap |]. now apply perm_skip.
Qed.

Lemma sort_desc_perm (l : list scored_station) : Permutation l (sort_desc l).
Proof.
  induction l as [| x l IH]; simpl.
  - apply perm_nil.
  - eapply perm_trans; [apply perm_skip, IH | apply insert_desc_perm].
Qed.

Lemma insert_desc_sorted (x : scored_station) (l : list scored_station) :
  StronglySorted score_ge l -> StronglySorted score_ge (insert_desc x l).
Proof.
  induction l as [| y l IH]; simpl; intros Hs.
  - constructor; constructor.
  - inversion Hs as [| ? ? Hl Hy]; subst.
    destruct (Z.leb (score y) (score x)) eqn:Hc.
    + apply Z.leb_le in Hc. constructor; [exact Hs |].
      constructor; [exact Hc |].
      eapply Forall_impl; [| exact Hy].
      unfold score_ge. intros; lia.
    + apply Z.leb_gt in Hc. constructor; [now apply IH |].
      eapply Permutation_Forall; [apply insert_desc_perm |].
      constructor; [unfold score_ge; lia | exact Hy].
Qed.

Lemma sort_desc_sorted (l : list scored_station) :
  StronglySorted score_ge (sort_desc l).
Proof.
  induction l as [| x l IH]; simpl.
  - constructor.
  - now apply insert_desc_sorted.
Qed.

(** Inserting keeps, among the entries of any one score, the new entry in
    front: it only passes entries that score strictly more. *)
Lemma insert_desc_with_score (k : Z) (x : scored_station) (l : list scored_station) :
  with_score k (insert_desc x l) = with_score k (x :: l).
Proof.
  induction l as [| y l IH]; [reflexivity |].
  simpl insert_desc. destruct (Z.leb (score y) (score x)) eqn:Hc; [reflexivity |].
  apply Z.leb_gt in Hc.
  unfold with_score in *. simpl in *. rewrite IH.
  destruct (Z.eqb (score y) k) eqn:Hy, (Z.eqb (score x) k) eqn:Hx; try reflexivity.
  apply Z.eqb_eq in Hy, Hx. lia.
Qed.

Lemma sort_desc_stable (k : Z) (l : list scored_station) :
  with_score k (sort_desc l) = with_score k l.
Proof.
  induction l as [| x l IH]; [reflexivity |].
  simpl sort_desc. rewrite insert_desc_with_score.
  unfold with_score in *. simpl. now rewrite IH.
Qed.

Lemma with_score_head (k : Z) (l : list scored_station) (z : scored_station)
    (rest : list scored_station) :
  with_score k l = z :: rest -> In z l /\ score z = k.
Proof.
  intros H.
  assert (Hin : In z (with_score k l)) by (rewrite H; now left).
  apply filter_In in Hin as [Hin Hk]. split; [exact Hin | now apply Z.eqb_eq].
Qed.

Lemma with_score_cons (k : Z) (x : scored_station) (l : list scored_station) :
  with_score k (x :: l) =
  if Z.eqb (score x) k then x :: with_score k l else with_score k l.
Proof. reflexivity. Qed.

Lemma sorted_head_max (x z : scored_station) (l : list scored_station) :
  StronglySorted score_ge (x :: l) -> In z l -> (score z <= score x)%Z.
Proof.
  intros Hs Hin. inversion Hs as [| ? ? _ Hall]; subst.
  rewrite Forall_forall in Hall. now apply Hall.
Qed.

(** Two descending lists with the same entries of each score, in the same
    order, are the same list. *)
Lemma stable_sorted_unique (a b : list scored_station) :
  StronglySorted score_ge a -> StronglySorted score_ge b ->
  (forall k, with_score k a = with_score k b) -> a = b.
Proof.
  revert b. induction a as [| x a IH]; intros [| y b] Ha Hb Heq.
  - reflexivity.
  - specialize (Heq (score y)). rewrite with_score_cons, Z.eqb_refl in Heq.
    discriminate Heq.
  - specialize (Heq (score x)). rewrite with_score_cons, Z.eqb_refl in Heq.
    discriminate Heq.
  - assert (Hxy : score x = score y).
    { destruct (Z.eq_dec (score x) (score y)) as [E | N]; [exact E | exfalso].
      assert (H1 : (score y <= score x)%Z).
      { pose proof (Heq (score y)) as H.
        rewrite !with_score_cons, Z.eqb_refl in H.
        destruct (Z.eqb (score x) (score y)) eqn:E; [apply Z.eqb_eq in E; lia |].
        apply with_score_head in H as [Hin Hz].
        pose proof (sorted_head_max x y a Ha Hin). lia. }
      assert (H2 : (score x <= score y)%Z).
      { pose proof (Heq (score x)) as H.
        rewrite !with_score_cons, Z.eqb_refl in H.
        destruct (Z.eqb (score y) (score x)) eqn:E; [apply Z.eqb_eq in E; lia |].
        symmetry in H. apply with_score_head in H as [Hin Hz].
        pose proof (sorted_head_max y x b Hb Hin). lia. }
      lia. }
    assert (Hhead : x = y).
    { pose proof (Heq (score x)) as H.
      rewrite !with_score_cons, <- Hxy, Z.eqb_refl in H. now injection H. }
    subst y. f_equal. apply IH.
    + now inversion Ha.
    + now inversion Hb.
    + intros k. specialize (Heq k). rewrite !with_score_cons in Heq.
      destruct (Z.eqb (score x) k); [now injection Heq | exact Heq].
Qed.

(** So the result of a stable descending sort is determined: whatever
    algorithm [list.sort] runs, it returns what [sort_desc] returns. *)
Lemma stable_sort_is_sort_desc (l out : list scored_station) :
  StronglySorted score_ge out ->
  (forall k, with_score k out = with_score k l) ->
  out = sort_desc l.
Proof.
  intros Hs Hst. apply stable_sorted_unique.
  - exact Hs.
  - apply sort_desc_sorted.
  - intros k. now rewrite Hst, sort_desc_stable.
Qed.

(** ** The scoring loop *)

Section ScoringFacts.

Variable py_repr : pyval -> string.

Lemma distance_step_shift (sc : Z) (d : pyval) :
  distance_step sc d = (dp <- distance_step 0 d ;; Ok (sc + dp)%Z).
Proof.
  unfold distance_step.
  destruct (py_lt_int d 5) as [[|] | e]; simpl; [f_equal; lia | | reflexivity].
  destruct (py_lt_int d 10) as [[|] | e]; simpl; try reflexivity; f_equal; lia.
Qed.

Lemma availability_step_shift (sc : Z) (s : pyval) :
  availability_step sc s = (ap <- availability_step 0 s ;; Ok (sc + ap)%Z).
Proof.
  unfold availability_step.
  destruct (py_get s "StatusType" (PDict [])) as [st | e]; simpl; [| reflexivity].
  destruct (py_get st "IsOperational" PNone) as [op | e]; simpl; [| reflexivity].
  destruct (py_truthy op); simpl; f_equal; lia.
Qed.

(** One turn of the loop over the connections. *)
Lemma connections_loop_cons (sc r : Z) (conn : pyval) (rest : list pyval) :
  connections_loop py_repr sc (conn :: rest) = Ok r ->
  connections_loop py_repr (if is_fast py_repr conn then sc + 8 else sc)%Z rest = Ok r.
Proof.
  simpl. intros H. bind_inv H.
  apply py_get_Ok in Ha as (c & -> & ->).
  unfold is_fast, field_or in *. simpl in *.
  destruct (lookup "Level" c) as [lv |]; simpl in H; [| exact H].
  destruct (py_truthy lv) eqn:Ht.
  - bind_inv H. apply py_get_Ok in Ha as (l & -> & ->).
    unfold field_or in H. simpl in H.
    destruct (lookup "Title" l) as [t |]; simpl in H.
    + destruct (py_in "Fast" (py_str py_repr t)); exact H.
    + exact H.
  - destruct lv as [| | | | | | l]; try exact H.
    destruct l; [exact H | discriminate Ht].
Qed.

Lemma connections_loop_count (conns : list pyval) (sc r : Z) :
  connections_loop py_repr sc conns = Ok r ->
  r = (sc + 8 * fast_count py_repr conns)%Z.
Proof.
  revert sc. induction conns as [| conn rest IH]; intros sc H.
  - simpl in H. injection H as <-. unfold fast_count. simpl. lia.
  - apply connections_loop_cons in H. apply IH in H. subst r.
    unfold fast_count. simpl filter.
    destruct (is_fast py_repr conn); simpl List.length; lia.
Qed.

Lemma connections_loop_shift (conns : list pyval) (sc : Z) :
  connections_loop py_repr sc conns =
  (cp <- connections_loop py_repr 0 conns ;; Ok (sc + cp)%Z).
Proof.
  revert sc. induction conns as [| conn rest IH]; intros sc; simpl.
  - f_equal. lia.
  - destruct (py_get conn "Level" (PDict [])) as [lv | e]; simpl; [| reflexivity].
    destruct (py_truthy lv); [| apply IH].
    destruct (py_get lv "Title" (PStr "")) as [t | e]; simpl; [| reflexivity].
    destruct (py_in "Fast" (py_str py_repr t)); [| apply IH].
    rewrite (IH (sc + 8)%Z), (IH 8%Z).
    destruct (connections_loop py_repr 0 rest); unfold bind; [f_equal; lia | reflexivity].
Qed.

End ScoringFacts.

Section RankingFacts.

Variable py_repr : pyval -> string.

(** A score is the sum of its three components, and the entry carries the
    record and its resolved distance. *)
Lemma score_station_components (s : pyval) (e : scored_station) :
  score_station py_repr s = Ok e ->
  station e = s /\
  distance e = field_or (PInt 999) ["AddressInfo"; "Distance"] s /\
  exists dp cp ap,
    distance_points (distance e) = Ok dp /\
    connection_points py_repr s = Ok cp /\
    availability_points s = Ok ap /\
    score e = (dp + cp + ap)%Z.
Proof.
  unfold score_station, connection_points, availability_points, distance_points.
  intros H.
  bind_inv H. rename a into address, Ha into Haddress.
  bind_inv H. rename a into dist, Ha into Hdist.
  bind_inv H. rename a into sc1, Ha into Hsc1.
  bind_inv H. rename a into connections, Ha into Hconnections.
  bind_inv H. rename a into conns, Ha into Hconns.
  bind_inv H. rename a into sc2, Ha into Hsc2.
  bind_inv H. rename a into sc3, Ha into Hsc3.
  injection H as <-. simpl station. simpl distance. simpl score.
  split; [reflexivity |]. split.
  - apply py_get_Ok in Haddress as (d & -> & ->).
    apply py_get_Ok in Hdist as (a & Ha & ->).
    rewrite Ha. now apply field_or_nested.
  - rewrite Hconnections. cbn [bind]. rewrite Hconns. cbn [bind].
    rewrite connections_loop_shift in Hsc2.
    rewrite availability_step_shift in Hsc3.
    destruct (connections_loop py_repr 0 conns) as [cp | ]; [| discriminate Hsc2].
    destruct (availability_step 0 s) as [ap | ]; [| discriminate Hsc3].
    cbn [bind] in Hsc2, Hsc3. injection Hsc2 as <-. injection Hsc3 as <-.
    exists sc1, cp, ap. repeat split; try assumption; lia.
Qed.

Lemma stations_loop_Ok (stations : list pyval) (acc out : list scored_station) :
  stations_loop py_repr acc stations = Ok out ->
  exists scored,
    out = (acc ++ scored)%list /\
    Forall2 (fun s e => score_station py_repr s = Ok e) stations scored.
Proof.
  revert acc. induction stations as [| s rest IH]; intros acc H; simpl in H.
  - injection H as <-. exists []. split; [now rewrite app_nil_r | constructor].
  - bind_inv H. apply IH in H as (scored & -> & Hall).
    exists (a :: scored). split.
    + now rewrite <- app_assoc.
    + now constructor.
Qed.

Lemma stations_loop_complete (stations : list pyval) (acc scored : list scored_station) :
  Forall2 (fun s e => score_station py_repr s = Ok e) stations scored ->
  stations_loop py_repr acc stations = Ok (acc ++ scored)%list.
Proof.
  intros Hall. revert acc.
  induction Hall as [| s e rest scored Hs _ IH]; intros acc; simpl.
  - now rewrite app_nil_r.
  - rewrite Hs. cbn [bind]. rewrite IH. now rewrite <- app_assoc.
Qed.

(** What the function returns on a list: the scored entries, in the order
    of the records, then sorted. *)
Lemma recommend_stations_Ok (stations : list pyval) (p : pyval)
    (out : list scored_station) :
  recommend_stations py_repr (PList stations) p = Ok out <->
  exists scored,
    Forall2 (fun s e => score_station py_repr s = Ok e) stations scored /\
    out = sort_desc scored.
Proof.
  unfold recommend_stations. simpl. split.
  - intros H. bind_inv H. injection H as <-.
    apply stations_loop_Ok in Ha as (scored & -> & Hall).
    now exists scored.
  - intros (scored & Hall & ->).
    now rewrite (stations_loop_complete _ [] scored Hall).
Qed.

Lemma Forall2_In_l {A B : Type} (R : A -> B -> Prop) (l1 : list A) (l2 : list B)
    (x : A) :
  Forall2 R l1 l2 -> In x l1 -> exists y, In y l2 /\ R x y.
Proof.
  induction 1 as [| a b l1 l2 Hab _ IH]; intros Hin; [contradiction |].
  destruct Hin as [<- | Hin].
  - exists b. split; [now left | exact Hab].
  - destruct (IH Hin) as (y & Hy & Hxy). exists y. split; [now right | exact Hxy].
Qed.

Lemma Forall2_In_r {A B : Type} (R : A -> B -> Prop) (l1 : list A) (l2 : list B)
    (y : B) :
  Forall2 R l1 l2 -> In y l2 -> exists x, In x l1 /\ R x y.
Proof.
  induction 1 as [| a b l1 l2 Hab _ IH]; intros Hin; [contradiction |].
  destruct Hin as [<- | Hin].
  - exists a. split; [now left | exact Hab].
  - destruct (IH Hin) as (x & Hx & Hxy). exists x. split; [now right | exact Hxy].
Qed.

(** Every record of the input has its entry in the output. *)
Lemma recommend_stations_entry (stations : list pyval) (p : pyval)
    (out : list scored_station) (s : pyval) :
  recommend_stations py_repr (PList stations) p = Ok out ->
  In s stations ->
  exists e, In e out /\ score_station py_repr s = Ok e.
Proof.
  intros H Hin. apply recommend_stations_Ok in H as (scored & Hall & ->).
  destruct (Forall2_In_l _ _ _ _ Hall Hin) as (e & He & Hs).
  exists e. split; [| exact Hs].
  eapply Permutation_in; [apply sort_desc_perm | exact He].
Qed.

(** Every entry of the output is the score of a record of the input. *)
Lemma recommend_stations_source (stations : list pyval) (p : pyval)
    (out : list scored_station) (e : scored_station) :
  recommend_stations py_repr (PList stations) p = Ok out ->
  In e out ->
  In (station e) stations /\ score_station py_repr (station e) = Ok e.
Proof.
  intros H Hin. apply recommend_stations_Ok in H as (scored & Hall & ->).
  apply (Permutation_in _ (Permutation_sym (sort_desc_perm scored))) in Hin.
  destruct (Forall2_In_r _ _ _ _ Hall Hin) as (s & Hs & Hse).
  destruct (score_station_components _ _ Hse) as (<- & _).
  now split.
Qed.

End RankingFacts.

(** ** The score of a record *)

Section Scoring.

Variable py_repr : pyval -> string.

Lemma distance_points_cases (d : pyval) (dp : Z) (q : Q) :
  distance_points d = Ok dp ->
  number_value d = Some q ->
  ((q < 5)%Q -> dp = 10%Z) /\
  ((5 <= q < 10)%Q -> dp = 5%Z) /\
  ((10 <= q)%Q -> dp = 0%Z).
Proof.
  unfold distance_points, distance_step.
  destruct d as [| b | z | [| | | x] | | |]; simpl; try discriminate;
    intros H Hq; injection Hq as <-.
  - destruct b; simpl in H; injection H as <-;
      unfold Qlt, Qle; simpl; repeat split; intros; lia.
  - unfold Qlt, Qle. simpl.
    destruct (Z.ltb_spec z 5); simpl in H.
    + injection H as <-. repeat split; intros; lia.
    + destruct (Z.ltb_spec z 10); simpl in H; injection H as <-;
        repeat split; intros; lia.
  - simpl in H. injection H as <-.
    unfold Qlt, Qle; simpl; repeat split; intros; lia.
  - change (Qnum x * 1 ?= Z.pos (5 * Qden x))%Z with (x ?= inject_Z 5)%Q in H.
    change (Qnum x * 1 ?= Z.pos (10 * Qden x))%Z with (x ?= inject_Z 10)%Q in H.
    destruct (x ?= inject_Z 5)%Q eqn:E5;
      [ apply Qeq_alt in E5 | apply Qlt_alt in E5 | apply Qgt_alt in E5 ];
      simpl in H;
      try (destruct (x ?= inject_Z 10)%Q eqn:E10;
           [ apply Qeq_alt in E10 | apply Qlt_alt in E10 | apply Qgt_alt in E10 ];
           simpl in H);
      injection H as <-; unfold Qlt, Qle, Qeq in *; simpl in *;
      repeat split; intros; lia.
Qed.

(** C1. For every station record given to [recommend_stations], the
    distance component of its score is 10 when the distance is below 5,
    5 when it is at least 5 and below 10, and 0 when it is 10 or more or
    when [AddressInfo.Distance] is absent, in which case the distance
    defaults to 999. *)
Theorem distance_component (stations : list pyval) (p : pyval)
    (out : list scored_station) (s : pyval) :
  recommend_stations py_repr (PList stations) p = Ok out ->
  In s stations ->
  exists e dp cp ap,
    In e out /\ station e = s /\
    distance e = field_or (PInt 999) ["AddressInfo"; "Distance"] s /\
    distance_points (distance e) = Ok dp /\
    connection_points py_repr s = Ok cp /\
    availability_points s = Ok ap /\
    score e = (dp + cp + ap)%Z /\
    (field ["AddressInfo"; "Distance"] s = None ->
       distance e = PInt 999 /\ dp = 0%Z) /\
    (forall q, number_value (distance e) = Some q ->
       ((q < 5)%Q -> dp = 10%Z) /\
       ((5 <= q < 10)%Q -> dp = 5%Z) /\
       ((10 <= q)%Q -> dp = 0%Z)).
Proof.
  intros H Hin.
  destruct (recommend_stations_entry _ _ _ _ _ H Hin) as (e & He & Hs).
  destruct (score_station_components _ _ _ Hs)
    as (Hst & Hd & dp & cp & ap & Hdp & Hcp & Hap & Hsum).
  exists e, dp, cp, ap.
  split; [exact He |]. split; [exact Hst |]. split; [exact Hd |].
  split; [exact Hdp |]. split; [exact Hcp |]. split; [exact Hap |].
  split; [exact Hsum |]. split.
  - intros Habsent. rewrite Hd in Hdp |- *. unfold field_or in *.
    rewrite Habsent in *. split; [reflexivity | now injection Hdp].
  - intros q Hq. exact (distance_points_cases _ _ q Hdp Hq).
Qed.

Lemma is_fast_spec (conn : pyval) :
  is_fast py_repr conn = true <->
  exists title,
    field ["Level"; "Title"] conn = Some title /\
    occurs_in "Fast" (py_str py_repr title).
Proof.
  unfold is_fast. destruct (field ["Level"; "Title"] conn) as [title |].
  - rewrite py_in_spec. split.
    + intros H. now exists title.
    + intros (t & Ht & H). now injection Ht as <-.
  - split; [discriminate | intros (t & Ht & _); discriminate Ht].
Qed.

(** C2. For every station record given to [recommend_stations], the
    connection component of its score is 8 times the number of entries of
    [Connections] whose [Level.Title], as a string, contains ["Fast"]:
    8 for each, with no cap; a connection with no [Level] or no [Title]
    is not counted, and neither is anything when [Connections] is
    absent. *)
Theorem fast_connection_component (stations : list pyval) (p : pyval)
    (out : list scored_station) (s : pyval) :
  recommend_stations py_repr (PList stations) p = Ok out ->
  In s stations ->
  exists e dp cp ap,
    In e out /\ station e = s /\
    distance_points (distance e) = Ok dp /\
    connection_points py_repr s = Ok cp /\
    availability_points s = Ok ap /\
    score e = (dp + cp + ap)%Z /\
    (forall conns, field ["Connections"] s = Some (PList conns) ->
       cp = (8 * fast_count py_repr conns)%Z) /\
    (field ["Connections"] s = None -> cp = 0%Z) /\
    (forall conn, is_fast py_repr conn = true <->
       exists title,
         field ["Level"; "Title"] conn = Some title /\
         occurs_in "Fast" (py_str py_repr title)).
Proof.
  intros H Hin.
  destruct (recommend_stations_entry _ _ _ _ _ H Hin) as (e & He & Hs).
  destruct (score_station_components _ _ _ Hs)
    as (Hst & Hd & dp & cp & ap & Hdp & Hcp & Hap & Hsum).
  exists e, dp, cp, ap.
  split; [exact He |]. split; [exact Hst |].
  split; [exact Hdp |]. split; [exact Hcp |]. split; [exact Hap |].
  split; [exact Hsum |].
  unfold connection_points in Hcp.
  bind_inv Hcp. apply py_get_Ok in Ha as (d & -> & ->).
  unfold field_or in Hcp. split; [| split].
  - intros conns Hf. rewrite Hf in Hcp. simpl in Hcp.
    apply connections_loop_count in Hcp. lia.
  - intros Hf. rewrite Hf in Hcp. simpl in Hcp. now injection Hcp.
  - apply is_fast_spec.
Qed.

Lemma same_outside_status_components (s1 s2 : pyval) :
  same_outside_status s1 s2 ->
  field_or (PInt 999) ["AddressInfo"; "Distance"] s1 =
  field_or (PInt 999) ["AddressInfo"; "Distance"] s2 /\
  connection_points py_repr s1 = connection_points py_repr s2.
Proof.
  intros (d1 & d2 & -> & -> & Hsame). split.
  - rewrite !field_or_cons. rewrite (Hsame "AddressInfo"); [reflexivity |].
    discriminate.
  - unfold connection_points. simpl.
    rewrite (Hsame "Connections"); [reflexivity | discriminate].
Qed.

Lemma availability_points_true (s : pyval) :
  field ["StatusType"; "IsOperational"] s = Some (PBool true) ->
  availability_points s = Ok 5%Z.
Proof.
  unfold availability_points, availability_step.
  destruct s as [| | | | | | d]; simpl; try discriminate.
  destruct (lookup "StatusType" d) as [[| | | | | | st] |]; simpl; try discriminate.
  destruct (lookup "IsOperational" st); [| discriminate].
  intros H. injection H as ->. reflexivity.
Qed.

Lemma availability_points_false (s : pyval) (ap : Z) :
  field ["StatusType"; "IsOperational"] s = Some (PBool false) \/
  field ["StatusType"; "IsOperational"] s = None ->
  availability_points s = Ok ap ->
  ap = 0%Z.
Proof.
  unfold availability_points, availability_step.
  destruct s as [| | | | | | d]; simpl; try discriminate.
  destruct (lookup "StatusType" d) as [[| | | | | | st] |]; simpl;
    try discriminate.
  - destruct (lookup "IsOperational" st) as [op |].
    + intros [H | H]; [| discriminate H]. injection H as ->.
      simpl. intros H. now injection H.
    + intros _ H. simpl in H. now injection H.
  - intros _ H. now injection H.
Qed.

(** C3. Of two station records that differ only under [StatusType], one
    with [IsOperational] true and one with the flag false or absent,
    [recommend_stations] scores the first exactly 5 points above the
    second. *)
Theorem operational_bonus (stations1 stations2 : list pyval) (p1 p2 : pyval)
    (out1 out2 : list scored_station) (e1 e2 : scored_station) :
  recommend_stations py_repr (PList stations1) p1 = Ok out1 ->
  recommend_stations py_repr (PList stations2) p2 = Ok out2 ->
  In e1 out1 ->
  In e2 out2 ->
  same_outside_status (station e1) (station e2) ->
  field ["StatusType"; "IsOperational"] (station e1) = Some (PBool true) ->
  field ["StatusType"; "IsOperational"] (station e2) = Some (PBool false) \/
  field ["StatusType"; "IsOperational"] (station e2) = None ->
  score e1 = (score e2 + 5)%Z.
Proof.
  intros H1 H2 Hin1 Hin2 Hsame Hon Hoff.
  destruct (recommend_stations_source _ _ _ _ _ H1 Hin1) as (_ & Hs1).
  destruct (recommend_stations_source _ _ _ _ _ H2 Hin2) as (_ & Hs2).
  destruct (score_station_components _ _ _ Hs1)
    as (_ & Hd1 & dp1 & cp1 & ap1 & Hdp1 & Hcp1 & Hap1 & ->).
  destruct (score_station_components _ _ _ Hs2)
    as (_ & Hd2 & dp2 & cp2 & ap2 & Hdp2 & Hcp2 & Hap2 & ->).
  destruct (same_outside_status_components _ _ Hsame) as (Hd & Hc).
  rewrite Hd1, Hd in Hdp1. rewrite Hd2 in Hdp2.
  rewrite Hdp1 in Hdp2. injection Hdp2 as ->.
  rewrite Hc, Hcp2 in Hcp1. injection Hcp1 as ->.
  rewrite (availability_points_true _ Hon) in Hap1. injection Hap1 as <-.
  rewrite (availability_points_false _ _ Hoff Hap2). lia.
Qed.

End Scoring.

(** ** The ranking *)

Section Ranking.

Variable py_repr : pyval -> string.

(** C4. The list [recommend_stations] returns is in descending order of
    score, and the entries of any one score follow each other in the order
    their records had in the input: the sort is stable. *)
Theorem ranking_sorted_stable (stations : list pyval) (p : pyval)
    (out : list scored_station) :
  recommend_stations py_repr (PList stations) p = Ok out ->
  StronglySorted score_ge out /\
  exists scored,
    Forall2 (fun s e => score_station py_repr s = Ok e /\ station e = s)
      stations scored /\
    forall k, with_score k out = with_score k scored.
Proof.
  intros H. apply recommend_stations_Ok in H as (scored & Hall & ->).
  split; [apply sort_desc_sorted |].
  exists scored. split.
  - eapply Forall2_impl; [| exact Hall].
    intros s e Hs. split; [exact Hs |].
    now destruct (score_station_components _ _ _ Hs).
  - intros k. apply sort_desc_stable.
Qed.

(** C8. [recommend_stations] returns the same result whatever
    [preferred_type] it is given: the argument is never read. *)
Theorem preferred_type_ignored (stations p1 p2 : pyval) :
  recommend_stations py_repr stations p1 = recommend_stations py_repr stations p2.
Proof.
  unfold recommend_stations. reflexivity.
Qed.

(** C10. [recommend_stations] returns one entry per record: the output is
    as long as the input and is a permutation of the entries scored in
    input order, each of which holds its record unchanged and, as its
    distance, the record's [AddressInfo.Distance], or 999 when absent. *)
Theorem ranking_keeps_records (stations : list pyval) (p : pyval)
    (out : list scored_station) :
  recommend_stations py_repr (PList stations) p = Ok out ->
  List.length out = List.length stations /\
  exists scored,
    Forall2 (fun s e =>
               station e = s /\
               distance e = field_or (PInt 999) ["AddressInfo"; "Distance"] s /\
               score_station py_repr s = Ok e)
      stations scored /\
    Permutation scored out.
Proof.
  intros H. apply recommend_stations_Ok in H as (scored & Hall & ->).
  split.
  - rewrite <- (Permutation_length (sort_desc_perm scored)).
    symmetry. exact (Forall2_length Hall).
  - exists scored. split; [| apply sort_desc_perm].
    eapply Forall2_impl; [| exact Hall].
    intros s e Hs.
    destruct (score_station_components _ _ _ Hs) as (Hst & Hd & _).
    now repeat split.
Qed.

End Ranking.

(** ** The context of the prompt *)

Section Context.

Variable py_repr : pyval -> string.

Lemma context_line_Ok (i : Z) (item : scored_station) (line : string) :
  context_line py_repr i item = Ok line ->
  exists km,
    py_format_1f (distance item) = Ok km /\
    line = dec i ++ ". "
           ++ py_str py_repr
                (field_or (PStr "Unknown") ["AddressInfo"; "Title"] (station item))
           ++ " - " ++ km ++ "km away" ++ nl.
Proof.
  unfold context_line. intros H.
  bind_inv H. rename a into addr, Ha into Haddr.
  bind_inv H. rename a into title, Ha into Htitle.
  bind_inv H. rename a into km, Ha into Hkm.
  injection H as <-. exists km. split; [exact Hkm |].
  apply py_get_Ok in Haddr as (d & Hd & ->).
  apply py_get_Ok in Htitle as (a & Ha & ->).
  rewrite Hd in *. rewrite Ha.
  now rewrite (field_or_nested _ _ _ _ _ Ha).
Qed.

Lemma context_loop_Ok (items : list scored_station) (i : Z) (context out : string) :
  context_loop py_repr i context items = Ok out ->
  exists body,
    out = context ++ join body /\
    List.length body = List.length items /\
    forall k item, nth_error items k = Some item ->
      exists line,
        nth_error body k = Some line /\
        context_line py_repr (i + Z.of_nat k) item = Ok line.
Proof.
  revert i context. induction items as [| item rest IH]; intros i context H.
  - simpl in H. injection H as <-. exists []. split; [| split].
    + simpl. clear. induction context as [| c s IHs]; simpl; [| rewrite <- IHs];
        reflexivity.
    + reflexivity.
    + intros [| k] it Hk; discriminate Hk.
  - simpl in H. bind_inv H. rename a into line, Ha into Hline.
    apply IH in H as (body & -> & Hlen & Hnth).
    exists (line :: body). split; [| split].
    + simpl. apply string_app_assoc.
    + simpl. now rewrite Hlen.
    + intros [| k] it Hk; simpl in Hk.
      * injection Hk as <-. exists line. split; [reflexivity |].
        now rewrite Z.add_0_r.
      * destruct (Hnth k it Hk) as (l & Hl & Hc). exists l. split; [exact Hl |].
        replace (i + Z.of_nat (S k))%Z with (i + 1 + Z.of_nat k)%Z by lia.
        exact Hc.
Qed.

(** C5, as the code has it. The context is the empty string when there is
    no ranked list or the list is empty. For a non-empty list it is the
    header line "Top 3 recommended stations:" followed by one line for
    each of the first min(3, length) entries, every line closed by a line
    feed; the line of the entry at position k reads
    "<k+1>. <title> - <distance>km away", with the title defaulting to
    "Unknown" and the distance printed with one decimal. *)
Theorem context_layout (ranked : list scored_station) (ctx : string) :
  main_context py_repr (Some ranked) = Ok ctx ->
  main_context py_repr None = Ok "" /\
  (ranked = [] -> ctx = "") /\
  (ranked <> [] ->
   exists body,
     ctx = "Top 3 recommended stations:" ++ nl ++ join body /\
     List.length body = Nat.min 3 (List.length ranked) /\
     forall k item, (k < 3)%nat -> nth_error ranked k = Some item ->
       exists km,
         py_format_1f (distance item) = Ok km /\
         nth_error body k =
         Some (dec (Z.of_nat k + 1) ++ ". "
               ++ py_str py_repr
                    (field_or (PStr "Unknown") ["AddressInfo"; "Title"]
                       (station item))
               ++ " - " ++ km ++ "km away" ++ nl)).
Proof.
  intros H. split; [reflexivity |]. split.
  - intros ->. simpl in H. now injection H.
  - intros Hne. destruct ranked as [| first others]; [now elim Hne |].
    unfold main_context in H.
    apply context_loop_Ok in H as (body & -> & Hlen & Hnth).
    exists body. split; [| split].
    + now rewrite string_app_assoc.
    + now rewrite Hlen, length_firstn.
    + intros k item Hk Hitem.
      assert (Htop : nth_error (firstn 3 (first :: others)) k = Some item).
      { rewrite nth_error_firstn.
        destruct (Nat.ltb_spec k 3); [exact Hitem | lia]. }
      destruct (Hnth k item Htop) as (line & Hline & Hc).
      apply context_line_Ok in Hc as (km & Hkm & ->).
      exists km. split; [exact Hkm |].
      rewrite Hline. now rewrite Z.add_comm.
Qed.

End Context.

(** ** Absent fields *)

Section AbsentFields.

Variable py_repr : pyval -> string.

Lemma is_distance_usable (d : pyval) (sc : Z) :
  is_distance d = true ->
  (exists r, distance_step sc d = Ok r) /\
  (exists km, py_format_1f d = Ok km).
Proof.
  destruct d as [| | z | f | | |]; simpl; try discriminate; intros H.
  - split.
    + unfold distance_step. simpl.
      destruct (Z.ltb z 5); [eexists; reflexivity |].
      destruct (Z.ltb z 10); eexists; reflexivity.
    + destruct (float_of_int z) as [f | e]; [| discriminate H].
      eexists; reflexivity.
  - split; [| eexists; reflexivity].
    unfold distance_step. simpl.
    destruct (float_lt_int f 5); [eexists; reflexivity |].
    destruct (float_lt_int f 10); eexists; reflexivity.
Qed.

Lemma default_distance_usable : is_distance (PInt 999) = true.
Proof. vm_compute. reflexivity. Qed.

Lemma distance_points_nonneg (d : pyval) (dp : Z) :
  distance_points d = Ok dp -> (0 <= dp)%Z.
Proof.
  unfold distance_points, distance_step. intros H.
  bind_inv H. destruct a.
  - injection H as <-. lia.
  - bind_inv H. destruct a; injection H as <-; lia.
Qed.

Lemma connection_points_nonneg (s : pyval) (cp : Z) :
  connection_points py_repr s = Ok cp -> (0 <= cp)%Z.
Proof.
  unfold connection_points. intros H. bind_inv H. bind_inv H.
  apply connections_loop_count in H. unfold fast_count in H. lia.
Qed.

Lemma availability_points_nonneg (s : pyval) (ap : Z) :
  availability_points s = Ok ap -> (0 <= ap)%Z.
Proof.
  unfold availability_points, availability_step. intros H.
  bind_inv H. bind_inv H. destruct (py_truthy a0); injection H as <-; lia.
Qed.

(** A connection with no [Level], or with a [Level] that has no [Title],
    leaves the score as it is. *)
Lemma connection_without_title (sc : Z) (conn : pyval) (rest : list pyval) :
  conforms_connection conn = true ->
  field ["Level"; "Title"] conn = None ->
  connections_loop py_repr sc (conn :: rest) = connections_loop py_repr sc rest.
Proof.
  destruct conn as [| | | | | | c]; simpl; try discriminate.
  destruct (lookup "Level" c) as [[| | | | | | l] |]; simpl; try discriminate.
  - intros _. destruct l as [| entry l]; [reflexivity |].
    destruct (lookup "Title" (entry :: l)); [discriminate |].
    intros _. reflexivity.
  - reflexivity.
Qed.

Lemma conforming_connections_total (conns : list pyval) (sc : Z) :
  forallb conforms_connection conns = true ->
  exists r, connections_loop py_repr sc conns = Ok r.
Proof.
  revert sc. induction conns as [| conn rest IH]; intros sc H.
  - exists sc. reflexivity.
  - simpl in H. apply andb_prop in H as [Hc Hrest].
    destruct conn as [| | | | | | c]; simpl in Hc; try discriminate.
    simpl. destruct (lookup "Level" c) as [[| | | | | | l] |]; simpl in *;
      try discriminate; [| now apply IH].
    destruct l as [| entry l]; [now apply IH |].
    cbn [bind py_get].
    destruct (py_in "Fast" _); now apply IH.
Qed.

Lemma py_get_dict (entries : list (string * pyval)) (key : string) (default : pyval) :
  py_get (PDict entries) key default = Ok (field_or default [key] (PDict entries)).
Proof.
  unfold field_or. simpl. now destruct (lookup key entries).
Qed.

(** The converse of [score_station_components]: when the address is a
    dict and the three components are defined, so is the score. *)
Lemma score_station_complete (d a : list (string * pyval)) (dp cp ap : Z) :
  field_or (PDict []) ["AddressInfo"] (PDict d) = PDict a ->
  distance_points (field_or (PInt 999) ["AddressInfo"; "Distance"] (PDict d)) = Ok dp ->
  connection_points py_repr (PDict d) = Ok cp ->
  availability_points (PDict d) = Ok ap ->
  score_station py_repr (PDict d) =
  Ok {| station := PDict d;
        score := (dp + cp + ap)%Z;
        distance := field_or (PInt 999) ["AddressInfo"; "Distance"] (PDict d) |}.
Proof.
  intros Ha Hdp Hcp Hap. unfold score_station.
  rewrite py_get_dict, Ha. cbn [bind].
  rewrite py_get_dict, (field_or_nested _ _ _ _ _ Ha). cbn [bind].
  unfold distance_points in Hdp. rewrite Hdp. cbn [bind].
  unfold connection_points in Hcp.
  destruct (py_get (PDict d) "Connections" (PList [])) as [connections |];
    [| discriminate Hcp].
  cbn [bind] in *.
  destruct (py_iter connections) as [conns |]; [| discriminate Hcp].
  cbn [bind] in *.
  rewrite connections_loop_shift, Hcp. cbn [bind].
  unfold availability_points in Hap.
  rewrite availability_step_shift, Hap. cbn [bind].
  reflexivity.
Qed.

Lemma conforming_address (d : list (string * pyval)) :
  optional conforms_address (lookup "AddressInfo" d) = true ->
  (exists a, field_or (PDict []) ["AddressInfo"] (PDict d) = PDict a) /\
  is_distance (field_or (PInt 999) ["AddressInfo"; "Distance"] (PDict d)) = true.
Proof.
  rewrite !field_or_cons.
  destruct (lookup "AddressInfo" d) as [[| | | | | | a] |]; simpl;
    try discriminate.
  - intros H. split; [now exists a |].
    rewrite field_or_cons.
    destruct (lookup "Distance" a); [exact H | apply default_distance_usable].
  - intros _. split; [now exists [] | apply default_distance_usable].
Qed.

Lemma conforming_connection_points (d : list (string * pyval)) :
  optional conforms_connections (lookup "Connections" d) = true ->
  exists cp, connection_points py_repr (PDict d) = Ok cp.
Proof.
  unfold connection_points. cbn [py_get bind].
  destruct (lookup "Connections" d) as [[| | | | | l |] |]; simpl;
    try discriminate.
  - apply conforming_connections_total.
  - intros _. now exists 0%Z.
Qed.

Lemma conforming_availability_points (d : list (string * pyval)) :
  optional is_dict (lookup "StatusType" d) = true ->
  exists ap, availability_points (PDict d) = Ok ap.
Proof.
  unfold availability_points, availability_step. cbn [py_get bind].
  destruct (lookup "StatusType" d) as [[| | | | | | st] |]; simpl;
    try discriminate; intros _.
  - destruct (py_truthy _); eexists; reflexivity.
  - now exists 0%Z.
Qed.

(** A record of the documented shape is scored without an exception. *)
Lemma conforming_station_total (s : pyval) :
  conforms_station s = true ->
  exists e, score_station py_repr s = Ok e /\ is_distance (distance e) = true.
Proof.
  destruct s as [| | | | | | d]; simpl; try discriminate. intros H.
  apply andb_prop in H as [H Hstatus]. apply andb_prop in H as [Haddr Hconns].
  destruct (conforming_address d Haddr) as ((a & Ha) & Hok).
  destruct (is_distance_usable _ 0 Hok) as ((dp & Hdp) & _).
  destruct (conforming_connection_points d Hconns) as (cp & Hcp).
  destruct (conforming_availability_points d Hstatus) as (ap & Hap).
  eexists. split.
  - exact (score_station_complete d a dp cp ap Ha Hdp Hcp Hap).
  - exact Hok.
Qed.

(** C9, as the code has it.
    A record in which any of [AddressInfo], [AddressInfo.Distance],
    [AddressInfo.Title], [Connections], a connection's [Level] or
    [Level.Title], [StatusType] and [StatusType.IsOperational] is absent,
    the fields present having the documented shape, is scored and
    formatted without an exception. An absent distance resolves to 999 and
    earns 0 points, absent connections, [Level] or [Title] earn 0 points,
    an absent flag earns 0 points, an absent title prints as "Unknown";
    and no component is ever negative, so absence only lowers the score. *)
Theorem absent_fields_default (s : pyval) (i : Z) :
  conforms_station s = true ->
  exists e dp cp ap km,
    score_station py_repr s = Ok e /\
    distance e = field_or (PInt 999) ["AddressInfo"; "Distance"] s /\
    distance_points (distance e) = Ok dp /\
    connection_points py_repr s = Ok cp /\
    availability_points s = Ok ap /\
    score e = (dp + cp + ap)%Z /\
    (0 <= dp)%Z /\ (0 <= cp)%Z /\ (0 <= ap)%Z /\
    py_format_1f (distance e) = Ok km /\
    context_line py_repr i e =
      Ok (dec i ++ ". "
          ++ py_str py_repr (field_or (PStr "Unknown") ["AddressInfo"; "Title"] s)
          ++ " - " ++ km ++ "km away" ++ nl) /\
    (field ["AddressInfo"; "Distance"] s = None ->
       distance e = PInt 999 /\ dp = 0%Z) /\
    (field ["AddressInfo"; "Title"] s = None ->
       field_or (PStr "Unknown") ["AddressInfo"; "Title"] s = PStr "Unknown") /\
    (field ["Connections"] s = None -> cp = 0%Z) /\
    (field ["StatusType"; "IsOperational"] s = None -> ap = 0%Z) /\
    (forall sc conn rest,
       conforms_connection conn = true ->
       field ["Level"; "Title"] conn = None ->
       connections_loop py_repr sc (conn :: rest) =
       connections_loop py_repr sc rest).
Proof.
  intros Hs.
  destruct (conforming_station_total s Hs) as (e & He & Hok).
  destruct (score_station_components _ _ _ He)
    as (Hst & Hd & dp & cp & ap & Hdp & Hcp & Hap & Hsum).
  destruct (is_distance_usable _ 0 Hok) as (_ & km & Hkm).
  exists e, dp, cp, ap, km.
  split; [exact He |]. split; [exact Hd |]. split; [exact Hdp |].
  split; [exact Hcp |]. split; [exact Hap |]. split; [exact Hsum |].
  split; [exact (distance_points_nonneg _ _ Hdp) |].
  split; [exact (connection_points_nonneg _ _ Hcp) |].
  split; [exact (availability_points_nonneg _ _ Hap) |].
  split; [exact Hkm |].
  split; [| split; [| split; [| split; [| split]]]].
  - destruct s as [| | | | | | d]; try discriminate Hs.
    unfold context_line. rewrite Hst. cbn [py_get bind].
    simpl in Hs. apply andb_prop in Hs as [Hs _]. apply andb_prop in Hs as [Ha _].
    rewrite field_or_cons.
    destruct (lookup "AddressInfo" d) as [[| | | | | | a] |]; simpl in Ha;
      try discriminate; cbn [py_get bind]; rewrite Hkm; cbn [bind];
      try rewrite field_or_cons; unfold field_or; simpl;
      try destruct (lookup "Title" a); reflexivity.
  - intros Habsent. rewrite Hd in Hdp |- *. unfold field_or in *.
    rewrite Habsent in *. split; [reflexivity | now injection Hdp].
  - intros Habsent. unfold field_or. now rewrite Habsent.
  - intros Habsent. unfold connection_points in Hcp.
    bind_inv Hcp. apply py_get_Ok in Ha as (d & -> & ->).
    unfold field_or in Hcp. rewrite Habsent in Hcp. simpl in Hcp.
    now injection Hcp.
  - intros Habsent. apply (availability_points_false s); [now right | exact Hap].
  - intros sc conn rest. apply connection_without_title.
Qed.

(** So the whole pipeline runs on records of the documented shape:
    ranking returns, and so does the context built from its result. *)
Lemma pipeline_total (stations : list pyval) (p : pyval) :
  forallb conforms_station stations = true ->
  exists out ctx,
    recommend_stations py_repr (PList stations) p = Ok out /\
    main_context py_repr (Some out) = Ok ctx.
Proof.
  intros Hall.
  assert (Hscored : exists scored,
             Forall2 (fun s e => score_station py_repr s = Ok e) stations scored /\
             Forall (fun e => conforms_station (station e) = true /\
                              is_distance (distance e) = true) scored).
  { induction stations as [| s rest IH].
    - exists []. split; constructor.
    - simpl in Hall. apply andb_prop in Hall as [Hs Hrest].
      destruct (IH Hrest) as (scored & H2 & Hf).
      destruct (conforming_station_total s Hs) as (e & He & Hok).
      exists (e :: scored). split; constructor; try assumption.
      destruct (score_station_components _ _ _ He) as (-> & _). now split. }
  destruct Hscored as (scored & H2 & Hf).
  exists (sort_desc scored).
  assert (Hline : forall i e,
             conforms_station (station e) = true /\ is_distance (distance e) = true ->
             exists line, context_line py_repr i e = Ok line).
  { intros i e [Hc Hd]. unfold context_line.
    destruct (station e) as [| | | | | | d]; try discriminate Hc.
    simpl in Hc. apply andb_prop in Hc as [Hc _]. apply andb_prop in Hc as [Ha _].
    destruct (is_distance_usable _ 0 Hd) as (_ & km & Hkm).
    cbn [py_get bind].
    destruct (lookup "AddressInfo" d) as [[| | | | | | a] |]; simpl in Ha;
      try discriminate; cbn [py_get bind]; rewrite Hkm; cbn [bind];
      eexists; reflexivity. }
  assert (Hloop : forall items i context,
             Forall (fun e => conforms_station (station e) = true /\
                              is_distance (distance e) = true) items ->
             exists ctx, context_loop py_repr i context items = Ok ctx).
  { induction items as [| item items IH]; intros i context Hitems.
    - exists context. reflexivity.
    - inversion Hitems as [| ? ? Hitem Hrest]; subst. simpl.
      destruct (Hline i item Hitem) as (line & ->). cbn [bind]. now apply IH. }
  assert (Hsorted : Forall (fun e => conforms_station (station e) = true /\
                                     is_distance (distance e) = true)
                      (sort_desc scored))
    by (eapply Permutation_Forall; [apply sort_desc_perm | exact Hf]).
  unfold main_context.
  destruct (sort_desc scored) as [| first others] eqn:Hout.
  - exists "". split; [| reflexivity].
    apply recommend_stations_Ok. exists scored. now rewrite Hout.
  - destruct (Hloop (firstn 3 (first :: others)) 1%Z
                ("Top 3 recommended stations:" ++ nl)) as (ctx & Hctx).
    + apply Forall_forall. intros e He. rewrite Forall_forall in Hsorted.
      apply Hsorted. rewrite <- (firstn_skipn 3 (first :: others)).
      apply in_or_app. now left.
    + exists ctx. split; [| exact Hctx].
      apply recommend_stations_Ok. exists scored. now rewrite Hout.
Qed.

End AbsentFields.

(** ** The two outbound calls *)

(** C6. When the directory-service call completes with a status code
    other than 200, [get_charging_stations] returns the empty list, shows
    no error and raises nothing. *)
Theorem non_200_gives_empty
    (requests_get : string -> poi_params -> Z -> outcome response)
    (lat lon dist : pyval) (resp : response) :
  requests_get poi_url (poi_query lat lon dist) 10 = Returned resp ->
  status_code resp <> 200%Z ->
  get_charging_stations requests_get lat lon dist = (PList [], []).
Proof.
  intros Hcall Hstatus. unfold get_charging_stations. rewrite Hcall.
  destruct (Z.eqb_spec (status_code resp) 200) as [E | _].
  - now elim Hstatus.
  - reflexivity.
Qed.

(** A transport failure is caught as well: the empty list is returned
    and the failure is shown. *)
Lemma failed_request_gives_empty
    (requests_get : string -> poi_params -> Z -> outcome response)
    (lat lon dist : pyval) (e : string) :
  requests_get poi_url (poi_query lat lon dist) 10 = Raised e ->
  get_charging_stations requests_get lat lon dist
  = (PList [], ["Error fetching stations: " ++ e]).
Proof.
  intros Hcall. unfold get_charging_stations. now rewrite Hcall.
Qed.

(** On status 200 the body is returned as parsed, whatever it is. *)
Lemma status_200_gives_body
    (requests_get : string -> poi_params -> Z -> outcome response)
    (lat lon dist : pyval) (body : pyval) :
  requests_get poi_url (poi_query lat lon dist) 10
  = Returned {| status_code := 200; json := Returned body |} ->
  get_charging_stations requests_get lat lon dist = (body, []).
Proof.
  intros Hcall. unfold get_charging_stations. now rewrite Hcall.
Qed.

(** C7. When the chat-completion call raises, [chat_with_openai] returns
    the string "Sorry, I encountered an error: " followed by the text of
    the exception, and raises nothing; when the call succeeds it returns
    the content of the first choice. *)
Theorem chat_failure_is_a_reply
    (create : chat_request -> outcome (list pyval))
    (user_message context : string) :
  (forall e, create (completion_request user_message context) = Raised e ->
     chat_with_openai create user_message context =
     PStr ("Sorry, I encountered an error: " ++ e)) /\
  (forall content others,
     create (completion_request user_message context) = Returned (content :: others) ->
     chat_with_openai create user_message context = content).
Proof.
  unfold chat_with_openai. split.
  - intros e ->. reflexivity.
  - intros content others ->. reflexivity.
Qed.

(** A response with no choice is a failure too: indexing it raises inside
    the [try]. *)
Lemma chat_without_choice
    (create : chat_request -> outcome (list pyval))
    (user_message context : string) :
  create (completion_request user_message context) = Returned [] ->
  chat_with_openai create user_message context =
  PStr "Sorry, I encountered an error: list index out of range".
Proof.
  unfold chat_with_openai. intros ->. reflexivity.
Qed.

(** ** The theorems at concrete records *)

Import Samples.

(** The scenario of the specification: A scores 10 + 8 + 5 = 23, B scores
    5, and the ranking of [A, B], as of [B, A], is [A, B]. *)
Example scenario_a_b :
  recommend_stations plain_repr (PList [station_a; station_b]) (PStr "Fast")
  = Ok [entry_a; entry_b] /\
  recommend_stations plain_repr (PList [station_b; station_a]) (PStr "Fast")
  = Ok [entry_a; entry_b].
Proof. split; reflexivity. Qed.

(** Entries of equal score keep the order of the input. *)
Example ties_keep_input_order :
  recommend_stations plain_repr
    (PList [station_open; station_bare; station_a; station_b]) PNone
  = Ok [entry_a; entry_open; entry_b; entry_bare] /\
  recommend_stations plain_repr
    (PList [station_b; station_bare; station_a; station_open]) PNone
  = Ok [entry_a; entry_b; entry_open; entry_bare].
Proof. split; reflexivity. Qed.

(** A key that is present and holds [None] is not an absent key: [get]
    returns the [None], and reading into it raises. *)
Example null_status_raises :
  recommend_stations plain_repr (PList [PDict [("StatusType", PNone)]]) PNone
  = Raise AttributeError /\
  recommend_stations plain_repr
    (PList [PDict [("AddressInfo", PDict [("Distance", PNone)])]]) PNone
  = Raise TypeError /\
  recommend_stations plain_repr
    (PList [PDict [("Connections", PList [PDict [("Level", PNone)]])]]) PNone
  = Ok [{| station := PDict [("Connections", PList [PDict [("Level", PNone)]])];
           score := 0; distance := PInt 999 |}].
Proof. repeat split; reflexivity. Qed.

(** A body that is not a list of records, such as an error object, makes
    the ranking raise. *)
Example error_object_raises :
  recommend_stations plain_repr (PDict [("error", PStr "quota")]) PNone
  = Raise AttributeError.
Proof. reflexivity. Qed.

(** The presentation [.1f] rounds the exact value, ties to even. *)
Example format_1f_samples :
  map py_format_1f
    [PInt 999; PFloat (FFin (1 # 4)); PFloat (FFin (3 # 4));
     PFloat (FFin (-1 # 25)); PFloat (FFin (12345 # 1000)); PBool true;
     PFloat FNan; PStr "3"; PNone]
  = [Ok "999.0"; Ok "0.2"; Ok "0.8"; Ok "-0.0"; Ok "12.3"; Ok "1.0";
     Ok "nan"; Raise ValueError; Raise TypeError].
Proof. vm_compute. reflexivity. Qed.

(** [float] rounds an int beyond 53 bits to even, and refuses one beyond
    the range of a double. *)
Example float_of_int_samples :
  float_of_int (2 ^ 53 + 1) = Ok (FFin (inject_Z (2 ^ 53))) /\
  float_of_int (2 ^ 53 + 3) = Ok (FFin (inject_Z (2 ^ 53 + 4))) /\
  float_of_int (2 ^ 1024) = Raise OverflowError /\
  py_format_1f (PInt (2 ^ 1024)) = Raise OverflowError.
Proof. vm_compute. repeat split; reflexivity. Qed.

Lemma distance_component_witness :
  recommend_stations plain_repr (PList [station_a; station_b]) (PStr "Fast")
  = Ok [entry_a; entry_b] /\
  In station_b [station_a; station_b] /\
  exists e dp,
    In e [entry_a; entry_b] /\ station e = station_b /\
    distance_points (distance e) = Ok dp /\ dp = 5%Z.
Proof.
  split; [reflexivity |]. split; [simpl; tauto |].
  destruct (distance_component plain_repr [station_a; station_b] (PStr "Fast")
              [entry_a; entry_b] station_b)
    as (e & dp & cp & ap & Hin & Hst & Hd & Hdp & _ & _ & _ & _ & Hcases).
  - reflexivity.
  - simpl; tauto.
  - exists e, dp. repeat split; try assumption.
    apply (Hcases 7%Q).
    + rewrite Hd. reflexivity.
    + unfold Qle, Qlt. simpl. lia.
Defined.

Lemma fast_connection_component_witness :
  recommend_stations plain_repr (PList [station_hub]) (PStr "Fast")
  = Ok [entry_hub] /\
  In station_hub [station_hub] /\
  exists e cp,
    In e [entry_hub] /\ station e = station_hub /\
    connection_points plain_repr station_hub = Ok cp /\ cp = 16%Z.
Proof.
  split; [reflexivity |]. split; [simpl; tauto |].
  destruct (fast_connection_component plain_repr [station_hub] (PStr "Fast")
              [entry_hub] station_hub)
    as (e & dp & cp & ap & Hin & Hst & _ & Hcp & _ & _ & Hcount & _).
  - reflexivity.
  - simpl; tauto.
  - exists e, cp. repeat split; try assumption.
    rewrite (Hcount _ eq_refl). reflexivity.
Defined.

Lemma operational_bonus_witness :
  same_outside_status station_a station_a_closed /\
  score entry_a = (score entry_a_closed + 5)%Z.
Proof.
  assert (Hsame : same_outside_status station_a station_a_closed).
  { eexists _, _. split; [reflexivity |]. split; [reflexivity |].
    intros key Hkey. simpl.
    destruct (String.eqb key "AddressInfo"); [reflexivity |].
    destruct (String.eqb key "Connections"); [reflexivity |].
    destruct (String.eqb_spec key "StatusType"); [contradiction | reflexivity]. }
  split; [exact Hsame |].
  apply (operational_bonus plain_repr [station_a] [station_a_closed]
           (PStr "Fast") (PStr "Fast") [entry_a] [entry_a_closed]).
  - reflexivity.
  - reflexivity.
  - simpl; tauto.
  - simpl; tauto.
  - exact Hsame.
  - reflexivity.
  - left. reflexivity.
Defined.

Lemma ranking_sorted_stable_witness :
  StronglySorted score_ge [entry_a; entry_open; entry_b; entry_bare] /\
  exists scored,
    Forall2 (fun s e => score_station plain_repr s = Ok e /\ station e = s)
      [station_open; station_bare; station_a; station_b] scored /\
    forall k,
      with_score k [entry_a; entry_open; entry_b; entry_bare] = with_score k scored.
Proof.
  apply (ranking_sorted_stable plain_repr
           [station_open; station_bare; station_a; station_b] PNone).
  reflexivity.
Defined.

Lemma ranking_keeps_records_witness :
  List.length [entry_a; entry_open; entry_b; entry_bare] = 4%nat /\
  exists scored,
    Forall2 (fun s e =>
               station e = s /\
               distance e = field_or (PInt 999) ["AddressInfo"; "Distance"] s /\
               score_station plain_repr s = Ok e)
      [station_open; station_bare; station_a; station_b] scored /\
    Permutation scored [entry_a; entry_open; entry_b; entry_bare].
Proof.
  apply (ranking_keeps_records plain_repr
           [station_open; station_bare; station_a; station_b] PNone).
  reflexivity.
Defined.

(** C5, as the specification words it, fails: for the one entry of
    station A the context is not the single line "1. Depot - 3.0km away"
    but two lines, the first of which is the header. *)
Lemma context_has_header_line :
  main_context plain_repr (Some [entry_a])
  = Ok ("Top 3 recommended stations:" ++ nl ++ "1. Depot - 3.0km away" ++ nl) /\
  lines ("Top 3 recommended stations:" ++ nl ++ "1. Depot - 3.0km away" ++ nl)
  = ["Top 3 recommended stations:"; "1. Depot - 3.0km away"] /\
  List.length
    (lines ("Top 3 recommended stations:" ++ nl ++ "1. Depot - 3.0km away" ++ nl))
  <> Nat.min 3 (List.length [entry_a]).
Proof.
  split; [reflexivity |]. split; [reflexivity |].
  vm_compute. discriminate.
Qed.

Lemma context_layout_witness :
  main_context plain_repr (Some [entry_a; entry_b])
  = Ok ("Top 3 recommended stations:" ++ nl
        ++ "1. Depot - 3.0km away" ++ nl ++ "2. Unknown - 7.0km away" ++ nl) /\
  exists body,
    "Top 3 recommended stations:" ++ nl
    ++ "1. Depot - 3.0km away" ++ nl ++ "2. Unknown - 7.0km away" ++ nl
    = "Top 3 recommended stations:" ++ nl ++ join body /\
    List.length body = 2%nat.
Proof.
  split; [reflexivity |].
  destruct (context_layout plain_repr [entry_a; entry_b]
              ("Top 3 recommended stations:" ++ nl
               ++ "1. Depot - 3.0km away" ++ nl ++ "2. Unknown - 7.0km away" ++ nl))
    as (_ & _ & Hlayout).
  - reflexivity.
  - destruct Hlayout as (body & Hctx & Hlen & _); [discriminate |].
    exists body. split; [exact Hctx | exact Hlen].
Defined.

Lemma non_200_gives_empty_witness :
  get_charging_stations unavailable
    (PFloat (FFin (377749 # 10000))) (PFloat (FFin (-1224194 # 10000))) (PInt 10)
  = (PList [], []).
Proof.
  apply (non_200_gives_empty unavailable _ _ _
           {| status_code := 503; json := Raised "Expecting value" |}).
  - reflexivity.
  - discriminate.
Defined.

Lemma chat_failure_is_a_reply_witness :
  chat_with_openai rate_limited "What is CCS?" ""
  = PStr "Sorry, I encountered an error: Error code: 429" /\
  chat_with_openai answering "What is CCS?" ""
  = PStr "CCS is a charging standard.".
Proof.
  split.
  - apply (proj1 (chat_failure_is_a_reply rate_limited "What is CCS?" "")).
    reflexivity.
  - apply (proj2 (chat_failure_is_a_reply answering "What is CCS?" "")
             (PStr "CCS is a charging standard.") []).
    reflexivity.
Defined.

Lemma absent_fields_default_witness :
  conforms_station station_bare = true /\
  exists e,
    score_station plain_repr station_bare = Ok e /\
    distance e = PInt 999 /\ score e = 0%Z /\
    context_line plain_repr 1 e = Ok ("1. Unknown - 999.0km away" ++ nl).
Proof.
  split; [reflexivity |].
  destruct (absent_fields_default plain_repr station_bare 1)
    as (e & dp & cp & ap & km & He & Hd & _ & _ & _ & Hsum & _ & _ & _ & Hkm
        & Hline & Hdist & _ & Hconn & Hflag & _).
  - reflexivity.
  - destruct (Hdist eq_refl) as (Hdefault & ->).
    rewrite (Hconn eq_refl), (Hflag eq_refl) in Hsum.
    exists e. repeat split; try assumption.
    rewrite Hline. rewrite Hdefault in Hkm.
    vm_compute in Hkm. injection Hkm as <-. reflexivity.
Defined.

(** C9, as the specification words it, fails: absence of some fields does
    not keep a record from raising.  In the record with [StatusType]
    null, [AddressInfo], [Connections] and the operational flag are
    absent, and scoring raises an [AttributeError]; in the record whose
    [Distance] is null the title and every other field are absent, and
    scoring raises a [TypeError].  The defaults stand in for missing
    keys only. *)
Lemma absent_fields_beside_null_raise :
  field ["AddressInfo"] (PDict [("StatusType", PNone)]) = None /\
  field ["Connections"] (PDict [("StatusType", PNone)]) = None /\
  field ["StatusType"; "IsOperational"] (PDict [("StatusType", PNone)]) = None /\
  score_station plain_repr (PDict [("StatusType", PNone)]) = Raise AttributeError /\
  recommend_stations plain_repr (PList [PDict [("StatusType", PNone)]]) (PStr "Fast")
  = Raise AttributeError /\
  field ["AddressInfo"; "Title"]
    (PDict [("AddressInfo", PDict [("Distance", PNone)])]) = None /\
  field ["Connections"]
    (PDict [("AddressInfo", PDict [("Distance", PNone)])]) = None /\
  field ["StatusType"]
    (PDict [("AddressInfo", PDict [("Distance", PNone)])]) = None /\
  score_station plain_repr
    (PDict [("AddressInfo", PDict [("Distance", PNone)])]) = Raise TypeError /\
  conforms_station (PDict [("StatusType", PNone)]) = false /\
  conforms_station (PDict [("AddressInfo", PDict [("Distance", PNone)])]) = false.
Proof.
  repeat split; reflexivity.
Qed.

(** ** More on the ranking: what it accepts, and the range of a score *)

Section RankingContract.

Variable py_repr : pyval -> string.

Lemma distance_step_Ok_iff (sc : Z) (d : pyval) :
  (exists r, distance_step sc d = Ok r) <-> comparable d = true.
Proof.
  unfold distance_step.
  destruct d as [| b | z | f | | |]; simpl; split; intros H;
    try reflexivity; try discriminate H;
    try (destruct H as (r & H); discriminate H).
  - destruct (Z.ltb (if b then 1 else 0) 5); [eexists; reflexivity |].
    destruct (Z.ltb (if b then 1 else 0) 10); eexists; reflexivity.
  - destruct (Z.ltb z 5); [eexists; reflexivity |].
    destruct (Z.ltb z 10); eexists; reflexivity.
  - destruct (float_lt_int f 5); [eexists; reflexivity |].
    destruct (float_lt_int f 10); eexists; reflexivity.
Qed.

Lemma connections_loop_Ok_iff (conns : list pyval) (sc : Z) :
  (exists r, connections_loop py_repr sc conns = Ok r) <->
  forallb scorable_connection conns = true.
Proof.
  revert sc. induction conns as [| conn rest IH]; intros sc.
  - simpl. split; [reflexivity | intros _; now exists sc].
  - cbn [connections_loop forallb].
    destruct conn as [| | | | | | c];
      try (simpl; split; [intros (r & H); discriminate H | discriminate]).
    cbn [py_get bind scorable_connection].
    destruct (lookup "Level" c) as [lv |]; cbn [optional].
    + destruct (py_truthy lv) eqn:Ht; cbn [negb orb].
      * destruct lv as [| | | | | | l];
          try (simpl; split; [intros (r & H); discriminate H | discriminate]).
        cbn [py_get bind is_dict andb].
        destruct (py_in "Fast" _); apply IH.
      * cbn [andb]. apply IH.
    + cbn [py_truthy andb]. apply IH.
Qed.

Lemma availability_step_Ok_iff (sc : Z) (d : list (string * pyval)) :
  (exists r, availability_step sc (PDict d) = Ok r) <->
  optional is_dict (lookup "StatusType" d) = true.
Proof.
  unfold availability_step. cbn [py_get bind].
  destruct (lookup "StatusType" d) as [[| | | | | | st] |]; simpl;
    try (split; [intros (r & H); discriminate H | discriminate]).
  - split; [reflexivity | intros _].
    destruct (py_truthy _); eexists; reflexivity.
  - split; [reflexivity | intros _; now exists sc].
Qed.

(** X3, for one record: [score_station] returns exactly on the records
    that are [scorable]. *)
Lemma score_station_Ok_iff (s : pyval) :
  (exists e, score_station py_repr s = Ok e) <-> scorable s = true.
Proof.
  destruct s as [| | | | | | d];
    try (simpl; split; [intros (e & H); discriminate H | discriminate]).
  unfold score_station, scorable. cbn [py_get bind].
  destruct (lookup "AddressInfo" d) as [address |]; cbn [optional].
  - destruct address as [| | | | | | a];
      try (simpl; split; [intros (e & H); discriminate H | discriminate]).
    cbn [py_get bind scorable_address].
    remember (match lookup "Distance" a with Some v => v | None => PInt 999 end)
      as dist eqn:Hdist.
    assert (Hcmp : optional comparable (lookup "Distance" a) = comparable dist).
    { subst dist. now destruct (lookup "Distance" a). }
    rewrite Hcmp. clear Hcmp Hdist.
    destruct (comparable dist) eqn:Hd.
    + apply (distance_step_Ok_iff 0) in Hd as (sc1 & ->). cbn [bind andb].
      destruct (lookup "Connections" d) as [connections |]; cbn [optional].
      * unfold scorable_connections.
        destruct (py_iter connections) as [conns | err]; cbn [bind];
          [| split; [intros (e & H); discriminate H | discriminate]].
        destruct (forallb scorable_connection conns) eqn:Hc.
        -- apply (connections_loop_Ok_iff conns sc1) in Hc as (sc2 & ->).
           cbn [bind andb]. rewrite <- (availability_step_Ok_iff sc2 d).
           split.
           ++ intros (e & H). bind_inv H. now exists a0.
           ++ intros (r & ->). cbn [bind]. eexists; reflexivity.
        -- split; [| discriminate]. intros (e & H). bind_inv H.
           assert (Hex : exists r, connections_loop py_repr sc1 conns = Ok r)
             by now exists a0.
           apply connections_loop_Ok_iff in Hex. congruence.
      * cbn [py_iter bind connections_loop andb].
        rewrite <- (availability_step_Ok_iff sc1 d). split.
        -- intros (e & H). bind_inv H. now exists a0.
        -- intros (r & ->). cbn [bind]. eexists; reflexivity.
    + split; [| discriminate]. intros (e & H). bind_inv H.
      assert (Hex : exists r, distance_step 0 dist = Ok r) by now exists a0.
      apply distance_step_Ok_iff in Hex. congruence.
  - cbn [py_get bind lookup]. change (distance_step 0 (PInt 999)) with (@Ok Z 0%Z).
    cbn [bind andb].
    destruct (lookup "Connections" d) as [connections |]; cbn [optional].
    + unfold scorable_connections.
      destruct (py_iter connections) as [conns | err]; cbn [bind];
        [| split; [intros (e & H); discriminate H | discriminate]].
      destruct (forallb scorable_connection conns) eqn:Hc.
      * apply (connections_loop_Ok_iff conns 0) in Hc as (sc2 & ->).
        cbn [bind andb]. rewrite <- (availability_step_Ok_iff sc2 d).
        split.
        -- intros (e & H). bind_inv H. now exists a.
        -- intros (r & ->). cbn [bind]. eexists; reflexivity.
      * split; [| discriminate]. intros (e & H). bind_inv H.
        assert (Hex : exists r, connections_loop py_repr 0 conns = Ok r)
          by now exists a.
        apply connections_loop_Ok_iff in Hex. congruence.
    + cbn [py_iter bind connections_loop andb].
      rewrite <- (availability_step_Ok_iff 0 d). split.
      * intros (e & H). bind_inv H. now exists a.
      * intros (r & ->). cbn [bind]. eexists; reflexivity.
Qed.

(** X3. [recommend_stations] returns a ranking of a list exactly when
    every record of the list is a dict whose [AddressInfo] and
    [StatusType], when present, are dicts, whose [Distance], when present,
    is a number, and whose [Connections], when present, are dicts with a
    [Level] that is absent, falsy or a dict.  One record outside this
    shape makes the whole call raise. *)
Theorem ranking_returns_iff (stations : list pyval) (p : pyval) :
  (exists out, recommend_stations py_repr (PList stations) p = Ok out) <->
  forallb scorable stations = true.
Proof.
  split.
  - intros (out & H). apply recommend_stations_Ok in H as (scored & Hall & _).
    induction Hall as [| s e rest scored Hs _ IH]; [reflexivity |].
    simpl. rewrite IH, andb_true_r.
    apply score_station_Ok_iff. now exists e.
  - intros Hall.
    assert (H : exists scored,
               Forall2 (fun s e => score_station py_repr s = Ok e) stations scored).
    { induction stations as [| s rest IH]; [exists []; constructor |].
      simpl in Hall. apply andb_prop in Hall as [Hs Hrest].
      apply score_station_Ok_iff in Hs as (e & He).
      destruct (IH Hrest) as (scored & Hscored).
      exists (e :: scored). now constructor. }
    destruct H as (scored & Hscored).
    exists (sort_desc scored). apply recommend_stations_Ok. now exists scored.
Qed.

End RankingContract.

Section RankingRange.

Variable py_repr : pyval -> string.

Lemma distance_points_le (d : pyval) (dp : Z) :
  distance_points d = Ok dp -> (dp <= 10)%Z.
Proof.
  unfold distance_points, distance_step. intros H.
  bind_inv H. destruct a.
  - injection H as <-. lia.
  - bind_inv H. destruct a; injection H as <-; lia.
Qed.

Lemma availability_points_le (s : pyval) (ap : Z) :
  availability_points s = Ok ap -> (ap <= 5)%Z.
Proof.
  unfold availability_points, availability_step. intros H.
  bind_inv H. bind_inv H. destruct (py_truthy a0); injection H as <-; lia.
Qed.

Lemma fast_count_le (conns : list pyval) :
  (0 <= fast_count py_repr conns <= Z.of_nat (List.length conns))%Z.
Proof.
  unfold fast_count.
  pose proof (filter_length_le (is_fast py_repr) conns). lia.
Qed.

(** X1. A score lies between 0 and 15 plus 8 for each connection of the
    record; it stays within the 23 that the score line prints as its
    denominator when at most one connection is labelled "Fast". *)
Theorem score_bounds (stations : list pyval) (p : pyval)
    (out : list scored_station) (e : scored_station) :
  recommend_stations py_repr (PList stations) p = Ok out ->
  In e out ->
  exists conns,
    py_iter (field_or (PList []) ["Connections"] (station e)) = Ok conns /\
    (0 <= score e <= 15 + 8 * Z.of_nat (List.length conns))%Z /\
    ((fast_count py_repr conns <= 1)%Z -> (score e <= 23)%Z).
Proof.
  intros H Hin.
  destruct (recommend_stations_source _ _ _ _ _ H Hin) as (_ & Hs).
  destruct (score_station_components _ _ _ Hs)
    as (_ & _ & dp & cp & ap & Hdp & Hcp & Hap & Hsum).
  pose proof (distance_points_nonneg _ _ Hdp).
  pose proof (distance_points_le _ _ Hdp).
  pose proof (availability_points_nonneg _ _ Hap).
  pose proof (availability_points_le _ _ Hap).
  unfold connection_points in Hcp. bind_inv Hcp.
  apply py_get_Ok in Ha as (d & _ & ->). bind_inv Hcp.
  apply connections_loop_count in Hcp.
  exists a. split; [exact Ha |].
  pose proof (fast_count_le a). split; [lia | intros Hone; lia].
Qed.

Lemma connections_loop_fast (n : nat) (sc : Z) :
  connections_loop py_repr sc (repeat fast_connection n)
  = Ok (sc + 8 * Z.of_nat n)%Z.
Proof.
  revert sc. induction n as [| n IH]; intros sc.
  - simpl. f_equal. lia.
  - change (repeat fast_connection (S n))
      with (fast_connection :: repeat fast_connection n).
    change (connections_loop py_repr sc (fast_connection :: repeat fast_connection n))
      with (connections_loop py_repr (sc + 8)%Z (repeat fast_connection n)).
    rewrite IH. f_equal. lia.
Qed.

(** X2. The score has no upper bound: a record with [n] connections
    labelled "Fast" and nothing else scores [8 * n], whatever [n], so
    the 23 of the score line is not a maximum. *)
Theorem fast_connections_add_up (n : nat) (p : pyval) :
  recommend_stations py_repr (PList [station_with_fast n]) p
  = Ok [ {| station := station_with_fast n;
            score := (8 * Z.of_nat n)%Z;
            distance := PInt 999 |} ].
Proof.
  assert (Hs : score_station py_repr (station_with_fast n)
               = Ok {| station := station_with_fast n;
                       score := (8 * Z.of_nat n)%Z;
                       distance := PInt 999 |}).
  { unfold station_with_fast.
    rewrite (score_station_complete py_repr _ [] 0 (8 * Z.of_nat n) 0).
    - replace (0 + 8 * Z.of_nat n + 0)%Z with (8 * Z.of_nat n)%Z by lia.
      reflexivity.
    - reflexivity.
    - reflexivity.
    - change (connections_loop py_repr 0 (repeat fast_connection n)
              = Ok (8 * Z.of_nat n)%Z).
      rewrite connections_loop_fast. f_equal.
    - reflexivity. }
  unfold recommend_stations. cbn [py_iter bind stations_loop].
  rewrite Hs. reflexivity.
Qed.

Lemma sort_desc_sorted_id (l : list scored_station) :
  StronglySorted score_ge l -> sort_desc l = l.
Proof.
  intros Hs. symmetry. apply stable_sort_is_sort_desc; [exact Hs | reflexivity].
Qed.

(** X4. Ranking again the records of a ranking, in the order it gave
    them, returns the same ranking. *)
Theorem ranking_idempotent (stations : list pyval) (p p' : pyval)
    (out : list scored_station) :
  recommend_stations py_repr (PList stations) p = Ok out ->
  recommend_stations py_repr (PList (map station out)) p' = Ok out.
Proof.
  intros H.
  assert (Hsrc : forall e, In e out -> score_station py_repr (station e) = Ok e)
    by (intros e He; apply (recommend_stations_source _ _ _ _ _ H He)).
  apply recommend_stations_Ok in H as (scored & _ & Hout).
  apply recommend_stations_Ok. exists out. split.
  - clear Hout. induction out as [| e rest IH]; simpl; constructor.
    + apply Hsrc. now left.
    + apply IH. intros e' He'. apply Hsrc. now right.
  - symmetry. apply sort_desc_sorted_id. rewrite Hout. apply sort_desc_sorted.
Qed.

Lemma Forall2_Permutation {A B : Type} (R : A -> B -> Prop)
    (l1 l2 : list A) (s1 : list B) :
  Permutation l1 l2 -> Forall2 R l1 s1 ->
  exists s2, Forall2 R l2 s2 /\ Permutation s1 s2.
Proof.
  intros Hp. revert s1.
  induction Hp as [| x l l' _ IH | x y l | l l' l'' _ IH1 _ IH2]; intros s1 H.
  - inversion H; subst. exists []. split; constructor.
  - inversion H as [| ? b ? s Hxb Hrest]; subst.
    destruct (IH s Hrest) as (s2 & H2 & Hp2).
    exists (b :: s2). split; [now constructor | now apply perm_skip].
  - inversion H as [| ? b ? s Hyb Hrest]; subst.
    inversion Hrest as [| ? c ? s' Hxc Hrest']; subst.
    exists (c :: b :: s'). split; [now repeat constructor | apply perm_swap].
  - destruct (IH1 s1 H) as (s2 & H2 & Hp2).
    destruct (IH2 s2 H2) as (s3 & H3 & Hp3).
    exists s3. split; [exact H3 | now apply perm_trans with s2].
Qed.

Lemma sorted_scores (l : list scored_station) :
  StronglySorted score_ge l ->
  StronglySorted (fun x y => (y <= x)%Z) (map score l).
Proof.
  induction 1 as [| e l _ IH Hall]; simpl; constructor; [exact IH |].
  rewrite Forall_map. exact Hall.
Qed.

Lemma sorted_permutation_eq (la lb : list Z) :
  Permutation la lb ->
  StronglySorted (fun x y => (y <= x)%Z) la ->
  StronglySorted (fun x y => (y <= x)%Z) lb ->
  la = lb.
Proof.
  revert lb. induction la as [| x la IH]; intros lb Hp Ha Hb.
  - apply Permutation_nil in Hp. now subst.
  - destruct lb as [| y lb].
    + apply Permutation_sym, Permutation_nil in Hp. discriminate Hp.
    + inversion Ha as [| ? ? Ha' Hxa]; subst.
      inversion Hb as [| ? ? Hb' Hyb]; subst.
      rewrite Forall_forall in Hxa, Hyb.
      assert (Hxy : x = y).
      { assert (Hy : In y (x :: la))
          by (apply (Permutation_in _ (Permutation_sym Hp)); now left).
        assert (Hx : In x (y :: lb))
          by (apply (Permutation_in _ Hp); now left).
        destruct Hy as [-> | Hy]; [reflexivity |].
        destruct Hx as [-> | Hx]; [reflexivity |].
        specialize (Hxa _ Hy). specialize (Hyb _ Hx). lia. }
      subst y. f_equal. apply IH; try assumption.
      now apply Permutation_cons_inv with x.
Qed.

(** X5. The order in which the directory service lists the records only
    matters among equal scores: ranking a permutation of the input gives a
    permutation of the output, with the same scores at the same ranks. *)
Theorem ranking_of_permutation (stations1 stations2 : list pyval) (p : pyval)
    (out1 : list scored_station) :
  Permutation stations1 stations2 ->
  recommend_stations py_repr (PList stations1) p = Ok out1 ->
  exists out2,
    recommend_stations py_repr (PList stations2) p = Ok out2 /\
    Permutation out1 out2 /\
    map score out1 = map score out2.
Proof.
  intros Hp H. apply recommend_stations_Ok in H as (scored1 & Hall1 & ->).
  destruct (Forall2_Permutation _ _ _ _ Hp Hall1) as (scored2 & Hall2 & Hps).
  exists (sort_desc scored2).
  assert (Hout : Permutation (sort_desc scored1) (sort_desc scored2)).
  { apply perm_trans with scored1; [apply Permutation_sym, sort_desc_perm |].
    apply perm_trans with scored2; [exact Hps | apply sort_desc_perm]. }
  split; [| split].
  - apply recommend_stations_Ok. now exists scored2.
  - exact Hout.
  - apply sorted_permutation_eq.
    + now apply Permutation_map.
    + apply sorted_scores, sort_desc_sorted.
    + apply sorted_scores, sort_desc_sorted.
Qed.

Lemma py_format_1f_comparable (d : pyval) :
  comparable d = true ->
  (exists km, py_format_1f d = Ok km) \/ py_format_1f d = Raise OverflowError.
Proof.
  destruct d as [| b | z | f | | |]; simpl; try discriminate; intros _.
  - left. destruct b; eexists; vm_compute; reflexivity.
  - unfold float_of_int. destruct (Z.leb _ _); cbn [bind].
    + now right.
    + left. eexists; reflexivity.
  - left. eexists; reflexivity.
Qed.

Lemma scored_entry_formats (i : Z) (e : scored_station) :
  score_station py_repr (station e) = Ok e ->
  (exists line, context_line py_repr i e = Ok line) \/
  context_line py_repr i e = Raise OverflowError.
Proof.
  intros H. unfold score_station in H.
  bind_inv H. rename a into address, Ha into Haddress.
  bind_inv H. rename a into dist, Ha into Hdist.
  bind_inv H. rename a into sc1, Ha into Hsc1.
  bind_inv H. bind_inv H. bind_inv H. bind_inv H.
  assert (Hd : distance e = dist) by (injection H as <-; reflexivity).
  assert (Hcmp : comparable dist = true)
    by (apply (distance_step_Ok_iff 0); now exists sc1).
  unfold context_line. rewrite Haddress. cbn [bind].
  apply py_get_Ok in Hdist as (fields & -> & _). cbn [py_get bind].
  rewrite Hd.
  destruct (py_format_1f_comparable dist Hcmp) as [(km & ->) | ->]; cbn [bind].
  - left. eexists; reflexivity.
  - now right.
Qed.

Lemma context_loop_formats (items : list scored_station) (i : Z) (context : string) :
  Forall (fun e => score_station py_repr (station e) = Ok e) items ->
  (exists ctx, context_loop py_repr i context items = Ok ctx) \/
  context_loop py_repr i context items = Raise OverflowError.
Proof.
  intros Hall. revert i context.
  induction Hall as [| e rest He _ IH]; intros i context; simpl.
  - left. now exists context.
  - destruct (scored_entry_formats i e He) as [(line & ->) | ->]; cbn [bind].
    + apply IH.
    + now right.
Qed.

(** X6. The context can be built from whatever [recommend_stations]
    returned: formatting raises nothing, except an [OverflowError] when a
    distance among the first three is an int beyond the doubles. *)
Theorem ranking_formats (stations : list pyval) (p : pyval)
    (out : list scored_station) :
  recommend_stations py_repr (PList stations) p = Ok out ->
  (exists ctx, main_context py_repr (Some out) = Ok ctx) \/
  main_context py_repr (Some out) = Raise OverflowError.
Proof.
  intros H.
  assert (Hsrc : Forall (fun e => score_station py_repr (station e) = Ok e) out).
  { apply Forall_forall. intros e He.
    apply (recommend_stations_source _ _ _ _ _ H He). }
  unfold main_context. destruct out as [| first others].
  - left. now exists "".
  - apply context_loop_formats.
    apply Forall_forall. intros e He. rewrite Forall_forall in Hsrc.
    apply Hsrc. rewrite <- (firstn_skipn 3 (first :: others)).
    apply in_or_app. now left.
Qed.

End RankingRange.

(** ** The start of the script and the fetch *)

(** X7. [get_charging_stations] returns data only from a response with
    status 200 whose body parses, and it shows an error only together
    with the empty list, one notice at most. *)
Theorem fetch_contract
    (requests_get : string -> poi_params -> Z -> outcome response)
    (lat lon dist : pyval) :
  (fst (get_charging_stations requests_get lat lon dist) <> PList [] ->
   exists resp,
     requests_get poi_url (poi_query lat lon dist) 10 = Returned resp /\
     status_code resp = 200%Z /\
     json resp = Returned (fst (get_charging_stations requests_get lat lon dist)) /\
     snd (get_charging_stations requests_get lat lon dist) = []) /\
  (snd (get_charging_stations requests_get lat lon dist) <> [] ->
   fst (get_charging_stations requests_get lat lon dist) = PList [] /\
   exists e,
     snd (get_charging_stations requests_get lat lon dist)
     = ["Error fetching stations: " ++ e]).
Proof.
  unfold get_charging_stations.
  destruct (requests_get poi_url (poi_query lat lon dist) 10) as [resp | e].
  - destruct (Z.eqb_spec (status_code resp) 200) as [E | N].
    + destruct (json resp) as [body | e] eqn:Hjson; simpl; split.
      * intros _. now exists resp.
      * intros H. now elim H.
      * intros H. now elim H.
      * intros _. split; [reflexivity | now exists e].
    + simpl. split; intros H; now elim H.
  - simpl. split.
    + intros H. now elim H.
    + intros _. split; [reflexivity | now exists e].
Qed.

(** X8. [get_openai_client] builds a client only with a truthy key: the
    environment variable when it is set and not empty, else the secret. *)
Theorem client_key_source (getenv : option string) (secret : outcome pyval)
    (key : pyval) :
  get_openai_client getenv secret = Constructed key ->
  py_truthy key = true /\
  ((exists s, getenv = Some s /\ s <> "" /\ key = PStr s) \/
   ((getenv = None \/ getenv = Some "") /\ secret = Returned key)).
Proof.
  unfold get_openai_client.
  destruct getenv as [s |]; cbn [py_truthy].
  - destruct (String.eqb_spec s "") as [-> | Hs]; cbn [negb].
    + destruct secret as [k | e]; [| discriminate].
      destruct (py_truthy k) eqn:Hk; cbn [negb]; [| discriminate].
      intros H. injection H as <-. split; [exact Hk |]. right. split; auto.
    + cbn [py_truthy]. destruct (String.eqb_spec s "") as [-> | _];
        [now elim Hs |].
      cbn [negb]. intros H. injection H as <-. split.
      * cbn [py_truthy]. destruct (String.eqb_spec s ""); [now elim Hs | reflexivity].
      * left. now exists s.
  - destruct secret as [k | e]; [| discriminate].
    destruct (py_truthy k) eqn:Hk; cbn [negb]; [| discriminate].
    intros H. injection H as <-. split; [exact Hk |]. right. split; auto.
Qed.

(** X9. A key in the environment wins: when the variable is set and not
    empty the client is built with it and the secrets are not read, so it
    does not matter whether reading them would raise. *)
Theorem environment_key_wins (s : string) (secret : outcome pyval) :
  s <> "" ->
  get_openai_client (Some s) secret = Constructed (PStr s).
Proof.
  intros Hs. unfold get_openai_client. cbn [py_truthy].
  destruct (String.eqb_spec s "") as [-> | _]; [now elim Hs |].
  cbn [negb py_truthy].
  destruct (String.eqb_spec s "") as [-> | _]; [now elim Hs | reflexivity].
Qed.

(** Without a key in the environment, a secrets lookup that raises is not
    caught, and an empty secret halts the script with the notice. *)
Lemma startup_without_key (secret : outcome pyval) :
  (forall e, secret = Raised e -> get_openai_client None secret = Crashed e) /\
  (forall k, secret = Returned k -> py_truthy k = false ->
     get_openai_client None secret
     = Stopped "Please add OPENAI_API_KEY in Streamlit secrets!").
Proof.
  split.
  - intros e ->. reflexivity.
  - intros k -> Hk. unfold get_openai_client. cbn [py_truthy]. now rewrite Hk.
Qed.

(** ** The page: running the pieces of [main] *)

Lemma bind_read {A : Type} (k : session_state -> ui A) (s : session_state) :
  (x <~ read_session ;; k x) s = k s s.
Proof.
  unfold ui_bind, read_session. now destruct (k s s) as [[s2 page] r].
Qed.

Lemma bind_write {A : Type} (s' : session_state) (k : unit -> ui A)
    (s : session_state) :
  (x <~ write_session s' ;; k x) s = k tt s'.
Proof.
  unfold ui_bind, write_session. now destruct (k tt s') as [[s2 page] r].
Qed.

Lemma bind_ret {A B : Type} (a : A) (k : A -> ui B) (s : session_state) :
  (x <~ ui_ret a ;; k x) s = k a s.
Proof.
  unfold ui_bind, ui_ret. now destruct (k a s) as [[s2 page] r].
Qed.

Lemma bind_lift_Ok {A B : Type} (a : A) (k : A -> ui B) (s : session_state) :
  (x <~ lift (Ok a) ;; k x) s = k a s.
Proof.
  unfold ui_bind, lift. now destruct (k a s) as [[s2 page] r].
Qed.

Lemma bind_lift_Raise {A B : Type} (e : error) (k : A -> ui B) (s : session_state) :
  (x <~ lift (Raise e) ;; k x) s = (s, [], Raise e).
Proof. reflexivity. Qed.

Lemma bind_emit {A : Type} (event : ui_event) (k : unit -> ui A)
    (s : session_state) :
  (x <~ emit event ;; k x) s = after [event] (k tt s).
Proof.
  unfold ui_bind, emit, after. now destruct (k tt s) as [[s2 page] r].
Qed.

Lemma ui_for_emit {A : Type} (f : A -> ui_event) (items : list A)
    (s : session_state) :
  ui_for (fun item => emit (f item)) items s = (s, map f items, Ok tt).
Proof.
  induction items as [| item rest IH]; [reflexivity |].
  cbn [ui_for]. rewrite bind_emit, IH. reflexivity.
Qed.

Lemma bind_for_emit {A B : Type} (f : A -> ui_event) (items : list A)
    (k : unit -> ui B) (s : session_state) :
  (x <~ ui_for (fun item => emit (f item)) items ;; k x) s
  = after (map f items) (k tt s).
Proof.
  unfold ui_bind at 1. rewrite ui_for_emit. unfold after.
  now destruct (k tt s) as [[s2 page] r].
Qed.

Lemma append_message_run (message : chat_message) (s : session_state) :
  append_message message s
  = (with_transcript s (transcript s ++ [message]), [], Ok tt).
Proof. reflexivity. Qed.

Lemma bind_append_message {A : Type} (message : chat_message) (k : unit -> ui A)
    (s : session_state) :
  (x <~ append_message message ;; k x) s
  = k tt (with_transcript s (transcript s ++ [message])).
Proof.
  unfold ui_bind at 1. rewrite append_message_run.
  now destruct (k tt _) as [[s2 page] r].
Qed.

Section ChatFacts.

Variable create : chat_request -> outcome (list pyval).
Variable py_repr : pyval -> string.

(** What [main_chat] does with a prompt, in one equation: the transcript
    is shown, the question is appended and shown, and then either the
    context is built and the answer shown and appended, or building the
    context raises. *)
Lemma main_chat_run (text : string) (s : session_state) :
  text <> "" ->
  main_chat create py_repr (Some text) s =
  let question := {| role := "user"; content := PStr text |} in
  match main_context py_repr (recommendations_key s) with
  | Ok context =>
      let answer := {| role := "assistant";
                       content := chat_with_openai create text context |} in
      (with_transcript s (transcript s ++ [question; answer]),
       (map bubble (transcript s) ++ [bubble question; bubble answer])%list,
       Ok tt)
  | Raise e =>
      (with_transcript s (transcript s ++ [question]),
       (map bubble (transcript s) ++ [bubble question])%list,
       Raise e)
  end.
Proof.
  intros Htext. unfold main_chat. rewrite bind_read.
  assert (Hinit :
    forall k : unit -> ui unit,
      (x <~ match messages_key s with
            | Some _ => ui_ret tt
            | None => write_session {| stations_key := stations_key s;
                                       recommendations_key := recommendations_key s;
                                       messages_key := Some [] |}
            end ;; k x) s
      = k tt (with_transcript s (transcript s))).
  { intros k. unfold transcript, with_transcript.
    destruct s as [st rc [history |]]; cbn [messages_key stations_key recommendations_key].
    - apply bind_ret.
    - apply bind_write. }
  rewrite Hinit. rewrite bind_read.
  change (match messages_key (with_transcript s (transcript s)) with
          | Some history => history
          | None => []
          end) with (transcript s).
  rewrite (bind_for_emit bubble).
  destruct (String.eqb_spec text "") as [E | _]; [now elim Htext |].
  cbn [negb]. rewrite bind_append_message, bind_emit, bind_read.
  cbn [with_transcript recommendations_key].
  destruct (main_context py_repr (recommendations_key s)) as [context | e].
  - rewrite bind_lift_Ok, bind_emit, append_message_run.
    unfold after, with_transcript, transcript.
    cbn [messages_key stations_key recommendations_key].
    rewrite <- !app_assoc. reflexivity.
  - rewrite bind_lift_Raise. unfold after. rewrite app_nil_r. reflexivity.
Qed.

End ChatFacts.

Section ChatTurn.

Variable create : chat_request -> outcome (list pyval).
Variable py_repr : pyval -> string.

(** X10. A chat turn shows the whole transcript, then appends the
    question and the answer to it, in this order, and changes nothing
    else in the session.  When the context cannot be built the exception
    leaves [main_chat] after the question was appended and shown: the
    transcript ends with a question that has no answer. *)
Theorem chat_turn (text : string) (s : session_state) :
  text <> "" ->
  (forall context,
     main_context py_repr (recommendations_key s) = Ok context ->
     main_chat create py_repr (Some text) s =
     (with_transcript s
        (transcript s
         ++ [ {| role := "user"; content := PStr text |};
              {| role := "assistant";
                 content := chat_with_openai create text context |} ]),
      (map bubble (transcript s)
       ++ [ UiChatMessage "user" (PStr text);
            UiChatMessage "assistant" (chat_with_openai create text context) ])%list,
      Ok tt)) /\
  (forall e,
     main_context py_repr (recommendations_key s) = Raise e ->
     main_chat create py_repr (Some text) s =
     (with_transcript s
        (transcript s ++ [ {| role := "user"; content := PStr text |} ]),
      (map bubble (transcript s) ++ [ UiChatMessage "user" (PStr text) ])%list,
      Raise e)).
Proof.
  intros Htext. split.
  - intros context H. rewrite (main_chat_run _ _ _ _ Htext). now rewrite H.
  - intros e H. rewrite (main_chat_run _ _ _ _ Htext). now rewrite H.
Qed.

(** X11. The assistant has no memory: what a chat turn adds to the
    transcript and to the page, and whether it raises, depend on the
    prompt and on the ranking the session holds, not on the transcript
    nor on the stored stations. *)
Theorem chat_has_no_memory (text : string) (s1 s2 : session_state) :
  text <> "" ->
  recommendations_key s1 = recommendations_key s2 ->
  exists added shown r,
    main_chat create py_repr (Some text) s1 =
    (with_transcript s1 (transcript s1 ++ added),
     (map bubble (transcript s1) ++ shown)%list, r) /\
    main_chat create py_repr (Some text) s2 =
    (with_transcript s2 (transcript s2 ++ added),
     (map bubble (transcript s2) ++ shown)%list, r).
Proof.
  intros Htext Hsame.
  rewrite !(main_chat_run _ _ _ _ Htext). rewrite <- Hsame.
  destruct (main_context py_repr (recommendations_key s1)) as [context | e];
    cbv zeta; eexists _, _, _; split; reflexivity.
Qed.

(** Without a prompt the turn only shows the transcript. *)
Lemma main_chat_idle (prompt : option string) (s : session_state) :
  prompt = None \/ prompt = Some "" ->
  main_chat create py_repr prompt s =
  (with_transcript s (transcript s), map bubble (transcript s), Ok tt).
Proof.
  intros Hprompt. unfold main_chat. rewrite bind_read.
  assert (Hinit :
    forall k : unit -> ui unit,
      (x <~ match messages_key s with
            | Some _ => ui_ret tt
            | None => write_session {| stations_key := stations_key s;
                                       recommendations_key := recommendations_key s;
                                       messages_key := Some [] |}
            end ;; k x) s
      = k tt (with_transcript s (transcript s))).
  { intros k. unfold transcript, with_transcript.
    destruct s as [st rc [history |]]; cbn [messages_key stations_key recommendations_key].
    - apply bind_ret.
    - apply bind_write. }
  rewrite Hinit, bind_read.
  change (match messages_key (with_transcript s (transcript s)) with
          | Some history => history
          | None => []
          end) with (transcript s).
  rewrite (bind_for_emit bubble).
  destruct Hprompt as [-> | ->]; cbn [String.eqb negb ui_ret after];
    now rewrite app_nil_r.
Qed.

End ChatTurn.

Section SearchFacts.

Variable requests_get : string -> poi_params -> Z -> outcome response.
Variable py_repr : pyval -> string.

(** What [main_search] does, in one equation. *)
Lemma main_search_run (lat lon dist : pyval) (s : session_state) :
  main_search requests_get py_repr lat lon dist s =
  let stations := fst (get_charging_stations requests_get lat lon dist) in
  let notices := snd (get_charging_stations requests_get lat lon dist) in
  match recommend_stations py_repr stations (PStr "Fast") with
  | Raise e =>
      ({| stations_key := Some stations;
          recommendations_key := recommendations_key s;
          messages_key := messages_key s |},
       map UiError notices, Raise e)
  | Ok ranked =>
      match py_len stations with
      | Ok n =>
          ({| stations_key := Some stations;
              recommendations_key := Some ranked;
              messages_key := messages_key s |},
           (map UiError notices ++ [UiSuccess ("Found " ++ dec n ++ " stations!")])%list,
           Ok tt)
      | Raise e =>
          ({| stations_key := Some stations;
              recommendations_key := Some ranked;
              messages_key := messages_key s |},
           map UiError notices, Raise e)
      end
  end.
Proof.
  unfold main_search.
  destruct (get_charging_stations requests_get lat lon dist) as [stations notices].
  cbn [fst snd]. cbv zeta.
  rewrite (bind_for_emit UiError), bind_read, bind_write.
  destruct (recommend_stations py_repr stations (PStr "Fast")) as [ranked | e].
  - rewrite bind_lift_Ok, bind_read, bind_write.
    cbn [stations_key recommendations_key messages_key].
    destruct (py_len stations) as [n | e].
    + rewrite bind_lift_Ok. reflexivity.
    + rewrite bind_lift_Raise. unfold after. now rewrite app_nil_r.
  - rewrite bind_lift_Raise. unfold after. now rewrite app_nil_r.
Qed.

Lemma score_station_of_str (text : string) :
  score_station py_repr (PStr text) = Raise AttributeError.
Proof. reflexivity. Qed.

(** When the ranking returns, [len] of what was ranked is the number of
    entries. *)
Lemma ranking_len (stations p : pyval) (out : list scored_station) :
  recommend_stations py_repr stations p = Ok out ->
  py_len stations = Ok (Z.of_nat (List.length out)).
Proof.
  destruct stations as [| | | | text | items | entries]; try discriminate.
  - unfold recommend_stations. cbn [py_iter bind].
    destruct text as [| c text]; [intros H; now injection H as <- |].
    discriminate.
  - intros H. apply recommend_stations_Ok in H as (scored & Hall & ->).
    cbn [py_len]. rewrite <- (Permutation_length (sort_desc_perm scored)).
    now rewrite (Forall2_length Hall).
  - unfold recommend_stations. cbn [py_iter bind].
    destruct entries as [| [key v] entries]; [intros H; now injection H as <- |].
    discriminate.
Qed.

(** X12. A search whose ranking returns stores what was fetched and its
    ranking, and announces as found the number of ranked entries, after
    the error of the fetch if there was one. *)
Theorem search_stores_ranking (lat lon dist : pyval) (s : session_state)
    (out : list scored_station) :
  recommend_stations py_repr
    (fst (get_charging_stations requests_get lat lon dist)) (PStr "Fast") = Ok out ->
  main_search requests_get py_repr lat lon dist s =
  ({| stations_key := Some (fst (get_charging_stations requests_get lat lon dist));
      recommendations_key := Some out;
      messages_key := messages_key s |},
   (map UiError (snd (get_charging_stations requests_get lat lon dist))
    ++ [UiSuccess ("Found " ++ dec (Z.of_nat (List.length out)) ++ " stations!")])%list,
   Ok tt).
Proof.
  intros H. rewrite main_search_run. cbv zeta.
  rewrite H, (ranking_len _ _ _ H). reflexivity.
Qed.

(** X13. A search whose ranking raises has already stored what was
    fetched: the session keeps the ranking of the search before, next to
    stations it was not computed from, and nothing is announced. *)
Theorem failed_ranking_keeps_stale (lat lon dist : pyval) (s : session_state)
    (e : error) :
  recommend_stations py_repr
    (fst (get_charging_stations requests_get lat lon dist)) (PStr "Fast") = Raise e ->
  main_search requests_get py_repr lat lon dist s =
  ({| stations_key := Some (fst (get_charging_stations requests_get lat lon dist));
      recommendations_key := recommendations_key s;
      messages_key := messages_key s |},
   map UiError (snd (get_charging_stations requests_get lat lon dist)),
   Raise e).
Proof.
  intros H. rewrite main_search_run. cbv zeta. now rewrite H.
Qed.

(** X14. A fetch that fails, by its status or by an exception, is a
    search that finds nothing: the ranking the session held is replaced by
    the empty one, "Found 0 stations!" is announced, and the context of
    the next chat turn is empty. *)
Theorem failed_fetch_clears_ranking (lat lon dist : pyval) (s : session_state) :
  fst (get_charging_stations requests_get lat lon dist) = PList [] ->
  main_search requests_get py_repr lat lon dist s =
  ({| stations_key := Some (PList []);
      recommendations_key := Some [];
      messages_key := messages_key s |},
   (map UiError (snd (get_charging_stations requests_get lat lon dist))
    ++ [UiSuccess "Found 0 stations!"])%list,
   Ok tt) /\
  main_context py_repr
    (recommendations_key
       (fst (fst (main_search requests_get py_repr lat lon dist s)))) = Ok "".
Proof.
  intros H.
  assert (Hrun : main_search requests_get py_repr lat lon dist s =
                 ({| stations_key := Some (PList []);
                     recommendations_key := Some [];
                     messages_key := messages_key s |},
                  (map UiError (snd (get_charging_stations requests_get lat lon dist))
                   ++ [UiSuccess "Found 0 stations!"])%list,
                  Ok tt)).
  { rewrite main_search_run. cbv zeta. rewrite H. reflexivity. }
  split; [exact Hrun |]. rewrite Hrun. reflexivity.
Qed.

End SearchFacts.

(** ** The cards *)

Lemma expander_labels_app (p1 p2 : list ui_event) :
  expander_labels (p1 ++ p2) = (expander_labels p1 ++ expander_labels p2)%list.
Proof.
  induction p1 as [| event p1 IH]; [reflexivity |].
  destruct event; simpl; now rewrite IH.
Qed.

Lemma ui_bind_Ok {A B : Type} (c : ui A) (k : A -> ui B)
    (s s' : session_state) (page : list ui_event) (b : B) :
  (x <~ c ;; k x) s = (s', page, Ok b) ->
  exists s1 p1 a p2,
    c s = (s1, p1, Ok a) /\ k a s1 = (s', p2, Ok b) /\ page = (p1 ++ p2)%list.
Proof.
  unfold ui_bind. destruct (c s) as [[s1 p1] [a | e]]; [| discriminate].
  destruct (k a s1) as [[s2 p2] r] eqn:Hk. intros H. injection H as <- <- ->.
  now exists s1, p1, a, p2.
Qed.

Lemma final_bind {A B : Type} (c : ui A) (k : A -> ui B) (s : session_state) :
  final (x <~ c ;; k x) s =
  match snd (c s) with
  | Ok a => final (k a) (final c s)
  | Raise _ => final c s
  end.
Proof.
  unfold final, ui_bind. destruct (c s) as [[s1 p1] [a | e]]; cbn [fst snd].
  - now destruct (k a s1) as [[s2 p2] r].
  - reflexivity.
Qed.

Lemma leaves_bind {A B : Type} (c : ui A) (k : A -> ui B) :
  leaves_session c -> (forall a, leaves_session (k a)) ->
  leaves_session (x <~ c ;; k x).
Proof.
  intros Hc Hk s. rewrite final_bind.
  destruct (snd (c s)); [rewrite Hc; apply Hk | apply Hc].
Qed.

Lemma leaves_lift {A : Type} (r : result A) : leaves_session (lift r).
Proof. intros s. reflexivity. Qed.

Lemma leaves_emit (event : ui_event) : leaves_session (emit event).
Proof. intros s. reflexivity. Qed.

Lemma leaves_ret {A : Type} (a : A) : leaves_session (ui_ret a).
Proof. intros s. reflexivity. Qed.

(** One step of a card: a value that is there, an event, or a value whose
    computation may have raised, in which case nothing follows. *)
Ltac card_step :=
  first
    [ rewrite bind_lift_Ok
    | rewrite bind_emit
    | match goal with
      | |- context [ui_bind (lift ?c) _ _] =>
          let E := fresh "E" in
          destruct c eqn:E;
          [ rewrite bind_lift_Ok
          | rewrite bind_lift_Raise;
            cbn [after app expander_labels fst snd List.length];
            split; [lia | intros Hok; discriminate Hok] ]
      end ].

Section Cards.

Variable py_repr : pyval -> string.
Variable set_order : list string -> list string.

Lemma main_card_leaves_session (i : Z) (item : scored_station) :
  leaves_session (main_card py_repr set_order i item).
Proof.
  unfold main_card.
  repeat (apply leaves_bind;
          [first [apply leaves_lift | apply leaves_emit] | intros ?]).
  destruct (py_truthy _); [| apply leaves_ret].
  repeat (apply leaves_bind;
          [first [apply leaves_lift | apply leaves_emit] | intros ?]).
  apply leaves_emit.
Qed.

(** A card opens one expander at most, and exactly one, with the label of
    its entry, when the card is completed. *)
Lemma main_card_labels (i : Z) (item : scored_station) (s : session_state) :
  (List.length (expander_labels (snd (fst (main_card py_repr set_order i item s))))
   <= 1)%nat /\
  (snd (main_card py_repr set_order i item s) = Ok tt ->
   exists km,
     py_format_1f (distance item) = Ok km /\
     expander_labels (snd (fst (main_card py_repr set_order i item s)))
     = [card_label py_repr i item km]).
Proof.
  unfold main_card.
  card_step. rename a into addr, E into Haddr.
  card_step. rename a into title, E into Htitle.
  card_step. rename a into km, E into Hkm.
  do 12 card_step.
  assert (Hlabel : "#" ++ dec i ++ " - " ++ py_str py_repr title
                   ++ " (" ++ km ++ " km)" = card_label py_repr i item km).
  { unfold card_label.
    apply py_get_Ok in Haddr as (d & Hd & ->).
    apply py_get_Ok in Htitle as (fields & Hf & ->).
    rewrite Hd in *. rewrite Hf.
    now rewrite (field_or_nested _ _ _ _ _ Hf). }
  rewrite Hlabel.
  destruct (py_truthy _).
  - do 3 card_step.
    cbn [emit after app expander_labels fst snd List.length].
    split; [lia | intros _; now exists km].
  - cbn [ui_ret after app expander_labels fst snd List.length].
    split; [lia | intros _; now exists km].
Qed.

Lemma cards_loop_leaves_session (items : list scored_station) (i : Z) :
  leaves_session (cards_loop py_repr set_order i items).
Proof.
  revert i. induction items as [| item rest IH]; intros i; cbn [cards_loop].
  - apply leaves_ret.
  - apply leaves_bind; [apply main_card_leaves_session | intros _; apply IH].
Qed.

Lemma cards_loop_labels (items : list scored_station) (i : Z)
    (s s' : session_state) (page : list ui_event) :
  cards_loop py_repr set_order i items s = (s', page, Ok tt) ->
  List.length (expander_labels page) = List.length items /\
  forall k item, nth_error items k = Some item ->
    exists km,
      py_format_1f (distance item) = Ok km /\
      nth_error (expander_labels page) k
      = Some (card_label py_repr (i + Z.of_nat k) item km).
Proof.
  revert i s page. induction items as [| item rest IH]; intros i s page H.
  - cbn [cards_loop ui_ret] in H. injection H as <- <-. split; [reflexivity |].
    intros [| k] it Hk; discriminate Hk.
  - cbn [cards_loop] in H.
    apply ui_bind_Ok in H as (s1 & p1 & [] & p2 & Hcard & Hrest & ->).
    destruct (main_card_labels i item s) as (_ & Hlabel).
    rewrite Hcard in Hlabel. cbn [fst snd] in Hlabel.
    destruct (Hlabel eq_refl) as (km & Hkm & Hp1).
    destruct (IH _ _ _ Hrest) as (Hlen & Hnth).
    rewrite expander_labels_app, Hp1. split.
    + simpl. now rewrite Hlen.
    + intros [| k] it Hk; simpl in Hk |- *.
      * injection Hk as <-. exists km. now rewrite Z.add_0_r.
      * destruct (Hnth k it Hk) as (km' & Hkm' & Hl). exists km'.
        split; [exact Hkm' |].
        now replace (i + Z.pos (Pos.of_succ_nat k))%Z with (i + 1 + Z.of_nat k)%Z by lia.
Qed.

Lemma main_cards_leaves_session : leaves_session (main_cards py_repr set_order).
Proof.
  intros s. unfold main_cards, final. rewrite bind_read.
  destruct (recommendations_key s) as [[| first others] |]; try reflexivity.
  rewrite bind_emit.
  pose proof (cards_loop_leaves_session (firstn 5 (first :: others)) 1 s) as H.
  unfold final in H.
  destruct (cards_loop _ _ _ _ s) as [[s2 page] r]. exact H.
Qed.

(** X15. When the cards are completed there is one card for each of the
    first min(5, length) entries of the ranking, in its order, labelled
    "#<rank> - <title> (<distance> km)" with the title defaulting to
    "Unknown Station" and the distance printed with one decimal; a
    session with no ranking, or an empty one, shows nothing, not even the
    header; and showing the cards changes nothing in the session. *)
Theorem cards_shown (s s' : session_state) (page : list ui_event) :
  main_cards py_repr set_order s = (s', page, Ok tt) ->
  s' = s /\
  (ranking s = [] -> page = []) /\
  List.length (expander_labels page) = Nat.min 5 (List.length (ranking s)) /\
  forall k item, (k < 5)%nat -> nth_error (ranking s) k = Some item ->
    exists km,
      py_format_1f (distance item) = Ok km /\
      nth_error (expander_labels page) k
      = Some (card_label py_repr (Z.of_nat k + 1) item km).
Proof.
  intros H. split.
  - pose proof (main_cards_leaves_session s) as Hs. unfold final in Hs.
    rewrite H in Hs. exact Hs.
  - unfold main_cards in H. rewrite bind_read in H. unfold ranking.
    destruct (recommendations_key s) as [[| first others] |].
    + cbn [ui_ret] in H. injection H as <- <-.
      repeat split. intros [| k] it _ Hk; discriminate Hk.
    + rewrite bind_emit in H.
      destruct (cards_loop py_repr set_order 1 (firstn 5 (first :: others)) s)
        as [[s2 p2] r] eqn:Hloop.
      cbn [after] in H. injection H as <- <- ->.
      apply cards_loop_labels in Hloop as (Hlen & Hnth).
      split; [discriminate |]. split.
      * cbn [app expander_labels]. now rewrite Hlen, length_firstn.
      * intros k item Hk Hitem. cbn [app expander_labels].
        assert (Htop : nth_error (firstn 5 (first :: others)) k = Some item).
        { rewrite nth_error_firstn.
          destruct (Nat.ltb_spec k 5); [exact Hitem | lia]. }
        destruct (Hnth k item Htop) as (km & Hkm & Hl).
        exists km. split; [exact Hkm |]. now rewrite Z.add_comm.
    + cbn [ui_ret] in H. injection H as <- <-.
      repeat split. intros [| k] it _ Hk; discriminate Hk.
Qed.

End Cards.

(** ** A whole run of [main] *)

Lemma final_emit_bind {A : Type} (event : ui_event) (k : unit -> ui A)
    (s : session_state) :
  final (x <~ emit event ;; k x) s = final (k tt) s.
Proof. rewrite final_bind. reflexivity. Qed.

Section Run.

Variable requests_get : string -> poi_params -> Z -> outcome response.
Variable create : chat_request -> outcome (list pyval).
Variable py_repr : pyval -> string.
Variable set_order : list string -> list string.

Lemma main_search_keeps_transcript (lat lon dist : pyval) (s : session_state) :
  messages_key (final (main_search requests_get py_repr lat lon dist) s)
  = messages_key s.
Proof.
  unfold final. rewrite main_search_run. cbv zeta.
  destruct (recommend_stations _ _ _); [destruct (py_len _) |]; reflexivity.
Qed.

Lemma main_chat_session (prompt : option string) (s : session_state) :
  exists added,
    final (main_chat create py_repr prompt) s
    = with_transcript s (transcript s ++ added) /\
    (List.length added <= 2)%nat /\
    (prompt = None \/ prompt = Some "" -> added = []).
Proof.
  unfold final.
  assert (Hcases : (prompt = None \/ prompt = Some "") \/
                   exists text, prompt = Some text /\ text <> "").
  { destruct prompt as [text |]; [| now left; left].
    destruct (String.eqb_spec text "") as [-> | Hne];
      [now left; right | right; now exists text]. }
  destruct Hcases as [Hidle | (text & -> & Htext)].
  - exists []. rewrite (main_chat_idle _ _ _ _ Hidle). cbn [fst].
    rewrite app_nil_r. repeat split. simpl. lia.
  - rewrite (main_chat_run _ _ _ _ Htext). cbv zeta.
    destruct (main_context py_repr (recommendations_key s)) as [context | e];
      cbn [fst]; eexists; (split; [reflexivity |]); split;
      try (simpl; lia);
      intros [H | H]; try discriminate H; injection H as H; now elim Htext.
Qed.

(** X16. The transcript only grows: whatever the inputs of a run and
    however it ends, the transcript it leaves is the one it found with at
    most two messages appended, and with none when nothing was typed. *)
Theorem transcript_append_only (lat lon dist : pyval) (find_clicked : bool)
    (prompt : option string) (s : session_state) :
  exists added,
    transcript
      (final (main requests_get create py_repr set_order
                lat lon dist find_clicked prompt) s)
    = (transcript s ++ added)%list /\
    (List.length added <= 2)%nat /\
    (prompt = None \/ prompt = Some "" -> added = []).
Proof.
  unfold main. rewrite !final_emit_bind, final_bind.
  assert (Hnone : exists added : list chat_message,
             transcript s = (transcript s ++ added)%list /\
             (List.length added <= 2)%nat /\
             (prompt = None \/ prompt = Some "" -> added = [])).
  { exists []. rewrite app_nil_r. repeat split. simpl. lia. }
  set (search := if find_clicked
                 then main_search requests_get py_repr lat lon dist
                 else ui_ret tt).
  assert (Hsearch : transcript (final search s) = transcript s).
  { unfold search, transcript. destruct find_clicked.
    - now rewrite main_search_keeps_transcript.
    - reflexivity. }
  destruct (snd (search s)) as [[] | e]; [| now rewrite Hsearch].
  rewrite final_emit_bind, final_bind.
  destruct (main_chat_session prompt (final search s)) as (added & Hchat & Hlen & Hidle).
  assert (Hgoal : transcript (final (main_chat create py_repr prompt) (final search s))
                  = (transcript s ++ added)%list).
  { rewrite Hchat. unfold transcript at 1. cbn [with_transcript messages_key].
    now rewrite Hsearch. }
  destruct (snd (main_chat create py_repr prompt (final search s))) as [[] | e].
  - rewrite main_cards_leaves_session. now exists added.
  - now exists added.
Qed.

(** X17. A run in which the button was not pressed keeps the stored
    stations and the ranking as they were, whatever is typed in the chat
    and however the run ends. *)
Theorem run_without_search (lat lon dist : pyval) (prompt : option string)
    (s : session_state) :
  stations_key
    (final (main requests_get create py_repr set_order lat lon dist false prompt) s)
  = stations_key s /\
  recommendations_key
    (final (main requests_get create py_repr set_order lat lon dist false prompt) s)
  = recommendations_key s.
Proof.
  unfold main. rewrite !final_emit_bind, final_bind.
  cbn [ui_ret snd]. change (final (ui_ret tt) s) with s.
  rewrite final_emit_bind, final_bind.
  destruct (main_chat_session prompt s) as (added & Hchat & _).
  destruct (snd (main_chat create py_repr prompt s)) as [[] | e].
  - rewrite main_cards_leaves_session, Hchat. now split.
  - rewrite Hchat. now split.
Qed.

End Run.

Section SearchThenChat.

Variable requests_get : string -> poi_params -> Z -> outcome response.
Variable create : chat_request -> outcome (list pyval).
Variable py_repr : pyval -> string.

(** X18. The chat turn that follows a search answers from the new
    ranking: the context sent with the prompt is the one built from what
    [recommend_stations] returned for the stations just fetched. *)
Theorem search_then_chat (lat lon dist : pyval) (text context : string)
    (s : session_state) (out : list scored_station) :
  text <> "" ->
  recommend_stations py_repr
    (fst (get_charging_stations requests_get lat lon dist)) (PStr "Fast") = Ok out ->
  main_context py_repr (Some out) = Ok context ->
  snd (main_chat create py_repr (Some text)
         (final (main_search requests_get py_repr lat lon dist) s)) = Ok tt /\
  transcript
    (final (main_chat create py_repr (Some text))
       (final (main_search requests_get py_repr lat lon dist) s))
  = (transcript s
     ++ [ {| role := "user"; content := PStr text |};
          {| role := "assistant";
             content := chat_with_openai create text context |} ])%list.
Proof.
  intros Htext Hrank Hctx.
  assert (Hs : final (main_search requests_get py_repr lat lon dist) s
               = {| stations_key :=
                      Some (fst (get_charging_stations requests_get lat lon dist));
                    recommendations_key := Some out;
                    messages_key := messages_key s |}).
  { unfold final. rewrite main_search_run. cbv zeta.
    now rewrite Hrank, (ranking_len _ _ _ _ Hrank). }
  rewrite Hs. unfold final.
  rewrite (main_chat_run create py_repr text _ Htext). cbv zeta.
  cbn [recommendations_key]. rewrite Hctx.
  split; reflexivity.
Qed.

End SearchThenChat.

(** ** The further theorems at concrete records *)

Lemma ranking_returns_iff_witness :
  exists out,
    recommend_stations plain_repr (PList [station_open; station_hub]) PNone = Ok out.
Proof.
  apply (proj2 (ranking_returns_iff plain_repr [station_open; station_hub] PNone)).
  reflexivity.
Defined.

Lemma score_bounds_witness :
  exists conns,
    py_iter (field_or (PList []) ["Connections"] (station entry_hub)) = Ok conns /\
    (0 <= score entry_hub <= 15 + 8 * Z.of_nat (List.length conns))%Z /\
    ((fast_count plain_repr conns <= 1)%Z -> (score entry_hub <= 23)%Z).
Proof.
  apply (score_bounds plain_repr [station_hub] PNone [entry_hub] entry_hub).
  - reflexivity.
  - now left.
Defined.

Lemma ranking_idempotent_witness :
  recommend_stations plain_repr
    (PList (map station [entry_a; entry_open; entry_b; entry_bare])) (PStr "Fast")
  = Ok [entry_a; entry_open; entry_b; entry_bare].
Proof.
  apply (ranking_idempotent plain_repr
           [station_open; station_bare; station_a; station_b] PNone).
  reflexivity.
Defined.

Lemma ranking_of_permutation_witness :
  exists out2,
    recommend_stations plain_repr (PList [station_a; station_b]) PNone = Ok out2 /\
    Permutation [entry_a; entry_b] out2 /\
    map score [entry_a; entry_b] = map score out2.
Proof.
  apply (ranking_of_permutation plain_repr [station_b; station_a]
           [station_a; station_b] PNone).
  - apply perm_swap.
  - reflexivity.
Defined.

Lemma ranking_formats_witness :
  (exists ctx, main_context plain_repr (Some [entry_a; entry_b]) = Ok ctx) \/
  main_context plain_repr (Some [entry_a; entry_b]) = Raise OverflowError.
Proof.
  apply (ranking_formats plain_repr [station_b; station_a] PNone).
  reflexivity.
Defined.

(** The exception of X6 does occur. *)
Example far_station_is_ranked_not_printed :
  recommend_stations plain_repr (PList [station_far]) PNone = Ok [entry_far] /\
  main_context plain_repr (Some [entry_far]) = Raise OverflowError.
Proof. split; vm_compute; reflexivity. Qed.

Lemma fetch_contract_witness :
  exists resp,
    serving poi_url (poi_query (PInt 37) (PInt (-122)) (PInt 10)) 10 = Returned resp /\
    status_code resp = 200%Z /\
    json resp
    = Returned (fst (get_charging_stations serving (PInt 37) (PInt (-122)) (PInt 10))) /\
    snd (get_charging_stations serving (PInt 37) (PInt (-122)) (PInt 10)) = [].
Proof.
  apply (proj1 (fetch_contract serving (PInt 37) (PInt (-122)) (PInt 10))).
  discriminate.
Defined.

Lemma client_key_source_witness :
  py_truthy (PStr "sk-secret") = true /\
  ((exists s, Some "" = Some s /\ s <> "" /\ PStr "sk-secret" = PStr s) \/
   ((Some "" = @None string \/ Some "" = Some "") /\
    Returned (PStr "sk-secret") = Returned (PStr "sk-secret"))).
Proof.
  apply (client_key_source (Some "") (Returned (PStr "sk-secret"))).
  reflexivity.
Defined.

Lemma environment_key_wins_witness :
  get_openai_client (Some "sk-env") (Raised "No secrets found")
  = Constructed (PStr "sk-env").
Proof.
  apply environment_key_wins. discriminate.
Defined.

Lemma chat_turn_witness :
  transcript (final (main_chat answering plain_repr (Some "What is CCS?")) ongoing)
  = [ {| role := "user"; content := PStr "Hi" |};
      {| role := "assistant"; content := PStr "Hello" |};
      {| role := "user"; content := PStr "What is CCS?" |};
      {| role := "assistant"; content := PStr "CCS is a charging standard." |} ] /\
  main_chat rate_limited plain_repr (Some "Where?")
    {| stations_key := None; recommendations_key := Some [entry_far];
       messages_key := None |}
  = ({| stations_key := None; recommendations_key := Some [entry_far];
        messages_key := Some [ {| role := "user"; content := PStr "Where?" |} ] |},
     [UiChatMessage "user" (PStr "Where?")],
     Raise OverflowError).
Proof.
  split.
  - unfold final.
    rewrite (proj1 (chat_turn answering plain_repr "What is CCS?" ongoing
                      ltac:(discriminate))
               ("Top 3 recommended stations:" ++ nl
                ++ "1. Depot - 3.0km away" ++ nl ++ "2. Unknown - 7.0km away" ++ nl)
               eq_refl).
    reflexivity.
  - rewrite (proj2 (chat_turn rate_limited plain_repr "Where?"
                      {| stations_key := None; recommendations_key := Some [entry_far];
                         messages_key := None |}
                      ltac:(discriminate))
               OverflowError).
    + reflexivity.
    + vm_compute. reflexivity.
Defined.

Lemma chat_has_no_memory_witness :
  exists added shown r,
    main_chat answering plain_repr (Some "What is CCS?") ongoing =
    (with_transcript ongoing (transcript ongoing ++ added),
     (map bubble (transcript ongoing) ++ shown)%list, r) /\
    main_chat answering plain_repr (Some "What is CCS?")
      {| stations_key := None; recommendations_key := Some [entry_a; entry_b];
         messages_key := None |} =
    (with_transcript
       {| stations_key := None; recommendations_key := Some [entry_a; entry_b];
          messages_key := None |} ([] ++ added),
     (map bubble [] ++ shown)%list, r).
Proof.
  apply (chat_has_no_memory answering plain_repr "What is CCS?" ongoing
           {| stations_key := None; recommendations_key := Some [entry_a; entry_b];
              messages_key := None |}).
  - discriminate.
  - reflexivity.
Defined.

Lemma search_stores_ranking_witness :
  main_search serving plain_repr (PInt 37) (PInt (-122)) (PInt 10) fresh =
  ({| stations_key := Some (PList [station_b; station_a]);
      recommendations_key := Some [entry_a; entry_b];
      messages_key := None |},
   [UiSuccess "Found 2 stations!"],
   Ok tt).
Proof.
  apply (search_stores_ranking serving plain_repr (PInt 37) (PInt (-122)) (PInt 10)
           fresh [entry_a; entry_b]).
  reflexivity.
Defined.

Lemma failed_ranking_keeps_stale_witness :
  main_search over_quota plain_repr (PInt 37) (PInt (-122)) (PInt 10) ongoing =
  ({| stations_key := Some (PDict [("error", PStr "quota")]);
      recommendations_key := Some [entry_a; entry_b];
      messages_key := messages_key ongoing |},
   [],
   Raise AttributeError).
Proof.
  apply (failed_ranking_keeps_stale over_quota plain_repr
           (PInt 37) (PInt (-122)) (PInt 10) ongoing AttributeError).
  reflexivity.
Defined.

Lemma failed_fetch_clears_ranking_witness :
  main_search unavailable plain_repr (PInt 37) (PInt (-122)) (PInt 10) ongoing =
  ({| stations_key := Some (PList []);
      recommendations_key := Some [];
      messages_key := messages_key ongoing |},
   [UiSuccess "Found 0 stations!"],
   Ok tt) /\
  main_context plain_repr
    (recommendations_key
       (fst (fst (main_search unavailable plain_repr
                    (PInt 37) (PInt (-122)) (PInt 10) ongoing)))) = Ok "".
Proof.
  apply (failed_fetch_clears_ranking unavailable plain_repr
           (PInt 37) (PInt (-122)) (PInt 10) ongoing).
  reflexivity.
Defined.

Lemma cards_shown_witness :
  exists page,
    main_cards plain_repr first_seen
      {| stations_key := None; recommendations_key := Some [entry_plugs; entry_a];
         messages_key := None |}
    = ({| stations_key := None; recommendations_key := Some [entry_plugs; entry_a];
          messages_key := None |}, page, Ok tt) /\
    expander_labels page = ["#1 - Plaza (1.5 km)"; "#2 - Depot (3.0 km)"] /\
    List.length (expander_labels page) = 2%nat.
Proof.
  eexists. split; [vm_compute; reflexivity |]. split; [reflexivity |].
  exact (proj1 (proj2 (proj2
           (cards_shown plain_repr first_seen
              {| stations_key := None;
                 recommendations_key := Some [entry_plugs; entry_a];
                 messages_key := None |} _ _ eq_refl)))).
Defined.

Lemma search_then_chat_witness :
  snd (main_chat answering plain_repr (Some "What is CCS?")
         (final (main_search serving plain_repr (PInt 37) (PInt (-122)) (PInt 10))
            fresh)) = Ok tt /\
  transcript
    (final (main_chat answering plain_repr (Some "What is CCS?"))
       (final (main_search serving plain_repr (PInt 37) (PInt (-122)) (PInt 10))
          fresh))
  = [ {| role := "user"; content := PStr "What is CCS?" |};
      {| role := "assistant"; content := PStr "CCS is a charging standard." |} ].
Proof.
  apply (search_then_chat serving answering plain_repr
           (PInt 37) (PInt (-122)) (PInt 10) "What is CCS?"
           ("Top 3 recommended stations:" ++ nl
            ++ "1. Depot - 3.0km away" ++ nl ++ "2. Unknown - 7.0km away" ++ nl)
           fresh [entry_a; entry_b]).
  - discriminate.
  - reflexivity.
  - reflexivity.
Defined.

Lemma pipeline_total_witness :
  exists out ctx,
    recommend_stations plain_repr (PList [station_b; station_bare; station_a]) PNone
    = Ok out /\
    main_context plain_repr (Some out) = Ok ctx.
Proof.
  apply (pipeline_total plain_repr [station_b; station_bare; station_a] PNone).
  reflexivity.
Defined.

(** ** Records of the documented shape, from the fetch to the answer *)

Section DocumentedRecords.

Variable requests_get : string -> poi_params -> Z -> outcome response.
Variable create : chat_request -> outcome (list pyval).
Variable py_repr : pyval -> string.

(** X19. When the directory service returns a list of records of the
    documented shape, every field optional, neither the search nor the
    chat turn after it raises: the ranking is stored, and the question
    and its answer are appended to the transcript. *)
Theorem documented_records_run (lat lon dist : pyval) (stations : list pyval)
    (text : string) (s : session_state) :
  fst (get_charging_stations requests_get lat lon dist) = PList stations ->
  forallb conforms_station stations = true ->
  text <> "" ->
  snd (main_search requests_get py_repr lat lon dist s) = Ok tt /\
  snd (main_chat create py_repr (Some text)
         (final (main_search requests_get py_repr lat lon dist) s)) = Ok tt /\
  exists out,
    recommend_stations py_repr (PList stations) (PStr "Fast") = Ok out /\
    recommendations_key (final (main_search requests_get py_repr lat lon dist) s)
    = Some out /\
    List.length
      (transcript
         (final (main_chat create py_repr (Some text))
            (final (main_search requests_get py_repr lat lon dist) s)))
    = (List.length (transcript s) + 2)%nat.
Proof.
  intros Hfetch Hshape Htext.
  destruct (pipeline_total py_repr stations (PStr "Fast") Hshape)
    as (out & ctx & Hrank & Hctx).
  assert (Hrun : main_search requests_get py_repr lat lon dist s
                 = ({| stations_key := Some (PList stations);
                       recommendations_key := Some out;
                       messages_key := messages_key s |},
                    (map UiError (snd (get_charging_stations requests_get lat lon dist))
                     ++ [UiSuccess ("Found " ++ dec (Z.of_nat (List.length out))
                                    ++ " stations!")])%list,
                    Ok tt)).
  { rewrite main_search_run. cbv zeta. rewrite Hfetch, Hrank.
    now rewrite (ranking_len _ _ _ _ Hrank). }
  unfold final. rewrite Hrun. cbn [fst snd].
  rewrite (main_chat_run create py_repr text _ Htext). cbv zeta.
  cbn [recommendations_key]. rewrite Hctx. cbn [fst snd].
  split; [reflexivity |]. split; [reflexivity |].
  exists out. split; [exact Hrank |]. split; [reflexivity |].
  unfold transcript at 1. cbn [with_transcript messages_key].
  rewrite length_app.
  unfold transcript. cbn [messages_key]. reflexivity.
Qed.

End DocumentedRecords.

Lemma documented_records_run_witness :
  snd (main_search serving plain_repr (PInt 37) (PInt (-122)) (PInt 10) ongoing)
  = Ok tt /\
  snd (main_chat answering plain_repr (Some "What is CCS?")
         (final (main_search serving plain_repr (PInt 37) (PInt (-122)) (PInt 10))
            ongoing)) = Ok tt /\
  exists out,
    recommend_stations plain_repr (PList [station_b; station_a]) (PStr "Fast")
    = Ok out /\
    recommendations_key
      (final (main_search serving plain_repr (PInt 37) (PInt (-122)) (PInt 10))
         ongoing)
    = Some out /\
    List.length
      (transcript
         (final (main_chat answering plain_repr (Some "What is CCS?"))
            (final (main_search serving plain_repr (PInt 37) (PInt (-122)) (PInt 10))
               ongoing)))
    = (List.length (transcript ongoing) + 2)%nat.
Proof.
  apply (documented_records_run serving answering plain_repr
           (PInt 37) (PInt (-122)) (PInt 10) [station_b; station_a]
           "What is CCS?" ongoing).
  - reflexivity.
  - reflexivity.
  - discriminate.
Defined.
